(** * DeviceManager of AIops_Network_api, shallow embedding

    This development embeds [src/device_manager.py] (class [DeviceManager])
    and [src/main.py]: the three command endpoints, [get_command_pairs] and
    the Excel upload [upload_excel].  The network devices and the
    backend libraries (pyATS/Genie, Netmiko) are not part of the repository:
    they are modelled as a [world] that answers each call made by the code.

    Python exceptions are values of [exn].  An [except Exception] clause only
    catches [Exc]; [BaseExc] stands for exceptions outside the [Exception]
    hierarchy (KeyboardInterrupt, SystemExit), which no clause of the code
    catches.  Every call to the outside world is logged in a trace, so that
    the calls (connect, send, disconnect) can be counted.  The Excel file
    enters [upload_excel] through what pandas reads from it. *)

From Stdlib Require Import String Ascii List Bool Arith Lia ZArith Sorted Permutation.
Import ListNotations.
Open Scope string_scope.

(** ** Python values used by the code *)

(** Exception classes that matter to the code. *)
Inductive exc_class :=
  | NetMikoTimeoutException
  | NetMikoAuthenticationException
  | HTTPException (status_code : nat)
  | KeyError
  | TimeoutError                (* builtin / socket timeout *)
  | CredentialsExhaustedError   (* unicon's login failure, raised under pyATS;
                                   its message is the credentials tried *)
  | ValueErrorClass (name : string)  (* [ValueError] or one of its subclasses *)
  | OtherException (name : string).  (* any other [Exception] class *)

Inductive exn :=
  | Exc (cls : exc_class) (msg : string)   (* a subclass of [Exception] *)
  | BaseExc (msg : string).                (* outside [Exception] *)

Inductive pyres (A : Type) :=
  | Ret (a : A)
  | Raise (e : exn).
Arguments Ret {A} a.
Arguments Raise {A} e.

(** Decimal rendering of an HTTP status code, as [f"{status_code}"]. *)
Fixpoint uint_str (u : Decimal.uint) : string :=
  match u with
  | Decimal.Nil => ""
  | Decimal.D0 u => "0" ++ uint_str u
  | Decimal.D1 u => "1" ++ uint_str u
  | Decimal.D2 u => "2" ++ uint_str u
  | Decimal.D3 u => "3" ++ uint_str u
  | Decimal.D4 u => "4" ++ uint_str u
  | Decimal.D5 u => "5" ++ uint_str u
  | Decimal.D6 u => "6" ++ uint_str u
  | Decimal.D7 u => "7" ++ uint_str u
  | Decimal.D8 u => "8" ++ uint_str u
  | Decimal.D9 u => "9" ++ uint_str u
  end.

(** [str(e)].  Starlette's [HTTPException.__str__] is
    [f"{self.status_code}: {self.detail}"]; unicon's
    [CredentialsExhaustedError] prefixes the credentials tried with a fixed
    sentence; other exceptions print their message. *)
Definition py_str (e : exn) : string :=
  match e with
  | Exc (HTTPException s) d => uint_str (Nat.to_uint s) ++ ": " ++ d
  | Exc CredentialsExhaustedError m =>
      "The following credentials have been tried without success : " ++ m
  | Exc _ m => m
  | BaseExc m => m
  end.

(** [str.lower] on ASCII text. *)
Definition ascii_lower (c : ascii) : ascii :=
  let n := nat_of_ascii c in
  if (65 <=? n)%nat && (n <=? 90)%nat then ascii_of_nat (n + 32)%nat else c.

Fixpoint lower (s : string) : string :=
  match s with
  | EmptyString => EmptyString
  | String c s' => String (ascii_lower c) (lower s')
  end.

(** Python's [pat in s] on strings: substring test. *)
Fixpoint str_in (pat s : string) : bool :=
  prefix pat s ||
  match s with
  | EmptyString => false
  | String _ s' => str_in pat s'
  end.

(** ** Data model *)

(** [device_info]: the request's descriptor dict.  Required keys are fields;
    [port] and [secret] are read with [.get], [None] meaning the key is
    absent. *)
Record device_info := {
  os_type : string;
  ip_address : string;
  username : string;
  password : string;
  port : option Z;
  secret : option string }.

(** [dict.get(key, default)] *)
Definition get_default {A} (o : option A) (d : A) : A :=
  match o with Some a => a | None => d end.

(** Truthiness of [device_info.get('secret')]. *)
Definition truthy_str (o : option string) : bool :=
  match o with Some s => negb (String.eqb s "") | None => false end.

(** The pyATS testbed dictionary built by [create_testbed]. *)
Record cli_connection := {
  protocol : string;
  cli_ip : string;
  cli_port : Z;
  cli_username : string;
  cli_password : string;
  ssh_options : string }.

Record credentials := {
  default_username : string;
  default_password : string;
  enable : option string }.  (* ['enable']['password'], [None]: key absent *)

Record testbed_device := {
  tb_type : string;
  tb_os : string;
  tb_platform : string;
  tb_cli : cli_connection;
  tb_credentials : credentials }.

Record testbed := { devices : list (string * testbed_device) }.

Definition legacy_ssh_options : string :=
  "-o KexAlgorithms=diffie-hellman-group-exchange-sha1,diffie-hellman-group14-sha1 -o HostKeyAlgorithms=ssh-rsa -o Ciphers=aes128-ctr,aes192-ctr,aes256-ctr".

(** [testbed['devices'][ip]['credentials']['enable'] = {'password': s}] *)
Definition set_enable (d : testbed_device) (s : string) : testbed_device :=
  {| tb_type := tb_type d; tb_os := tb_os d; tb_platform := tb_platform d;
     tb_cli := tb_cli d;
     tb_credentials :=
       {| default_username := default_username (tb_credentials d);
          default_password := default_password (tb_credentials d);
          enable := Some s |} |}.

(** [DeviceManager.create_testbed] *)
Definition create_testbed (di : device_info) : testbed :=
  let os := os_type di in
  let dev :=
    {| tb_type := os; tb_os := os; tb_platform := os;
       tb_cli := {| protocol := "ssh"; cli_ip := ip_address di;
                    cli_port := get_default (port di) 22%Z;
                    cli_username := username di; cli_password := password di;
                    ssh_options := legacy_ssh_options |};
       tb_credentials := {| default_username := username di;
                            default_password := password di;
                            enable := None |} |} in
  let dev := if truthy_str (secret di)
             then set_enable dev (get_default (secret di) "")
             else dev in
  {| devices := [(ip_address di, dev)] |}.

(** Netmiko parameters built by [connect_huawei_device]. *)
Record netmiko_params := {
  device_type : string;
  host : string;
  nm_username : string;
  nm_password : string;
  nm_port : Z;
  timeout : nat;
  session_log : string }.

(** Keyword arguments of [device.connect(learn_hostname=..., log_stdout=...)]. *)
Record connect_args := { learn_hostname : bool; log_stdout : bool }.

(** Structured output returned by Genie's [device.parse]. *)
Definition parsed := list (string * string).

(** One entry of [responses]: the two dict shapes appended by the loops.
    [Success c out None] has no ["parsed_output"] key. *)
Inductive response :=
  | Success (command : string) (output : string) (parsed_output : option parsed)
  | Error (command : string) (error : string).

Definition resp_command (r : response) : string :=
  match r with Success c _ _ => c | Error c _ => c end.

Record report := {
  report_device_info : device_info;
  command_responses : list response }.

(** ** The outside world and the trace *)

(** Calls the code makes to the backends.  The command index is the
    position of the command in the batch. *)
Inductive event :=
  | Ev_netmiko_connect (p : netmiko_params)
  | Ev_pyats_load (tb : testbed)
  | Ev_pyats_connect (a : connect_args)
  | Ev_send_command (i : nat) (c : string)
  | Ev_execute (i : nat) (c : string)
  | Ev_parse (i : nat) (c : string)
  | Ev_disconnect.

Definition is_command_event (ev : event) : bool :=
  match ev with
  | Ev_send_command _ _ | Ev_execute _ _ | Ev_parse _ _ => true
  | _ => false
  end.


(** What the backends answer.  The device's reply to the [i]-th command of
    the batch is [w_send_command w i c] (Netmiko), [w_execute w i c] and
    [w_parse w i c] (pyATS/Genie). *)
Record world := {
  w_connect_handler : netmiko_params -> pyres unit;  (* ConnectHandler with the parameters *)
  w_load : testbed -> pyres unit;                    (* loader.load *)
  w_connect : connect_args -> pyres unit;            (* device.connect *)
  w_send_command : nat -> string -> pyres string;
  w_execute : nat -> string -> pyres string;
  w_parse : nat -> string -> pyres parsed;
  w_disconnect : pyres unit }.                       (* device.disconnect *)

(** ** A state-and-exception monad over the trace *)

Definition M (A : Type) := list event -> pyres A * list event.

Definition ret {A} (a : A) : M A := fun tr => (Ret a, tr).
Definition raise {A} (e : exn) : M A := fun tr => (Raise e, tr).
Definition bind {A B} (m : M A) (k : A -> M B) : M B :=
  fun tr => match m tr with
            | (Ret a, tr') => k a tr'
            | (Raise e, tr') => (Raise e, tr')
            end.
Notation "x <- m ;; k" := (bind m (fun x => k))
  (at level 61, m at next level, right associativity).

(** [try: m except Exception as e: h(e)] *)
Definition try_except {A} (m : M A) (h : exn -> M A) : M A :=
  fun tr => match m tr with
            | (Raise (Exc cls msg), tr') => h (Exc cls msg) tr'
            | res => res
            end.

(** A backend call: logged, answered by the world. *)
Definition call {A} (ev : event) (r : pyres A) : M A :=
  fun tr => (r, (tr ++ [ev])%list).

Definition http_exc (status : nat) (detail : string) : exn :=
  Exc (HTTPException status) detail.

(** ** DeviceManager *)

(** [DeviceManager.connect_to_device]: the pyATS (Generic family) path. *)
Definition connect_to_device (w : world) (di : device_info) : M unit :=
  try_except
    (let testbed_dict := create_testbed di in
     _ <- call (Ev_pyats_load testbed_dict) (w_load w testbed_dict) ;;
     let args := {| learn_hostname := true; log_stdout := true |} in
     call (Ev_pyats_connect args) (w_connect w args))
    (fun e => raise (http_exc 500 ("Failed to connect to device: " ++ py_str e))).

(** The Netmiko [device_type] chosen from [os_type]. *)
Definition huawei_device_type (os : string) : string :=
  let os_type := lower os in
  if str_in "vrpv8" os_type then "huawei_vrpv8"
  else if str_in "vrp" os_type then "huawei"
  else "huawei".

Definition netmiko_params_of (di : device_info) : netmiko_params :=
  {| device_type := huawei_device_type (os_type di);
     host := ip_address di;
     nm_username := username di;
     nm_password := password di;
     nm_port := get_default (port di) 22%Z;
     timeout := 30;
     session_log := "/tmp/" ++ ip_address di ++ "-netmiko.log" |}.

(** The three [except] clauses of [connect_huawei_device]. *)
Definition huawei_connect_handler (di : device_info) (e : exn) : M unit :=
  match e with
  | Exc NetMikoTimeoutException _ =>
      raise (http_exc 500 ("Connection timed out to device " ++ ip_address di))
  | Exc NetMikoAuthenticationException _ =>
      raise (http_exc 500 ("Authentication failed for device " ++ ip_address di))
  | _ =>
      raise (http_exc 500 ("Failed to connect to Huawei device: " ++ py_str e))
  end.

(** [DeviceManager.connect_huawei_device]: the Netmiko (Huawei family) path. *)
Definition connect_huawei_device (w : world) (di : device_info) : M unit :=
  try_except
    (let p := netmiko_params_of di in
     call (Ev_netmiko_connect p) (w_connect_handler w p))
    (huawei_connect_handler di).

(** The body of the Huawei [for command in commands] loop, [i] being the
    position of [command]; it yields the dict that is appended. *)
Definition huawei_body (w : world) (i : nat) (command : string) : M response :=
  try_except
    (output <- call (Ev_send_command i command) (w_send_command w i command) ;;
     ret (Success command output None))
    (fun e => ret (Error command (py_str e))).

(** The body of the pyATS loop: execute, then try to parse. *)
Definition generic_body (w : world) (i : nat) (command : string) : M response :=
  try_except
    (output <- call (Ev_execute i command) (w_execute w i command) ;;
     try_except
       (parsed_output <- call (Ev_parse i command) (w_parse w i command) ;;
        ret (Success command output (Some parsed_output)))
       (fun _ => ret (Success command output None)))
    (fun e => ret (Error command (py_str e))).

(** [for command in commands: ... responses.append(...)] *)
Fixpoint for_each_command (body : nat -> string -> M response) (i : nat)
    (commands : list string) (responses : list response) : M (list response) :=
  match commands with
  | [] => ret responses
  | command :: rest =>
      r <- body i command ;;
      for_each_command body (S i) rest (responses ++ [r])
  end.

(** [any(os_type in device_info['os_type'].lower() for os_type in [...])] *)
Definition is_huawei (os : string) : bool :=
  existsb (fun p => str_in p (lower os)) ["huawei"; "vrp"; "vrpv8"].

(** [device.disconnect()] *)
Definition disconnect (w : world) : M unit := call Ev_disconnect (w_disconnect w).

(** [DeviceManager.execute_commands] *)
Definition execute_commands (w : world) (di : device_info) (commands : list string)
    : M report :=
  try_except
    (responses <-
       (if is_huawei (os_type di) then
          _ <- connect_huawei_device w di ;;
          responses <- for_each_command (huawei_body w) 0 commands [] ;;
          _ <- disconnect w ;;
          ret responses
        else
          _ <- connect_to_device w di ;;
          responses <- for_each_command (generic_body w) 0 commands [] ;;
          _ <- disconnect w ;;
          ret responses) ;;
     ret {| report_device_info := di; command_responses := responses |})
    (fun e => raise (http_exc 500 ("Error executing commands: " ++ py_str e))).

(** The request body: [device_info] and [inspection_commands], each command
    being a dict whose ['command'] key may be missing ([None]). *)
Record device_data := {
  dd_device_info : device_info;
  inspection_commands : list (option string) }.

(** [[cmd['command'] for cmd in device_data['inspection_commands']]] *)
Fixpoint extract_commands (cmds : list (option string)) : M (list string) :=
  match cmds with
  | [] => ret []
  | None :: _ => raise (Exc KeyError "'command'")
  | Some c :: rest => cs <- extract_commands rest ;; ret (c :: cs)
  end.

(** [DeviceManager.process_device_data] *)
Definition process_device_data (w : world) (dd : device_data) : M report :=
  try_except
    (let di := dd_device_info dd in
     commands <- extract_commands (inspection_commands dd) ;;
     execute_commands w di commands)
    (fun e => raise (http_exc 400 ("Invalid device data format: " ++ py_str e))).

(** [execute_huawei_commands] of [main.py], with its [os_type] check. *)
Definition execute_huawei_commands (w : world) (dd : device_data) : M report :=
  try_except
    (let di := dd_device_info dd in
     if negb (existsb (String.eqb (lower (os_type di))) ["huawei"; "vrp"; "vrpv8"])
     then raise (http_exc 400
                   "Invalid OS type for Huawei device. Use 'huawei', 'vrp', or 'vrpv8'")
     else process_device_data w dd)
    (fun e => raise (http_exc 500 ("Error processing Huawei device data: " ++ py_str e))).

(** ** Derived views used by the statements *)

(** The device's reply to command [i], as the entry appended for it, or the
    exception that escapes the loop. *)
Definition huawei_entry (w : world) (i : nat) (c : string) : pyres response :=
  fst (huawei_body w i c []).

Definition generic_entry (w : world) (i : nat) (c : string) : pyres response :=
  fst (generic_body w i c []).

Definition entry (w : world) (di : device_info) : nat -> string -> pyres response :=
  if is_huawei (os_type di) then huawei_entry w else generic_entry w.

(** The loop's outcome from its per-command entries: the entries in order,
    or the first exception that escapes a body. *)
Fixpoint collect (f : nat -> string -> pyres response) (i : nat)
    (cmds : list string) : pyres (list response) :=
  match cmds with
  | [] => Ret []
  | c :: cs =>
      match f i c with
      | Ret r => match collect f (S i) cs with
                 | Ret rs => Ret (r :: rs)
                 | Raise e => Raise e
                 end
      | Raise e => Raise e
      end
  end.

Definition map_pyres {A B} (f : A -> B) (r : pyres A) : pyres B :=
  match r with Ret a => Ret (f a) | Raise e => Raise e end.

(** Whether opening the session succeeds: [ConnectHandler] for the Huawei
    family, [loader.load] then [device.connect] for the Generic one. *)
Definition connection_result (w : world) (di : device_info) : pyres unit :=
  if is_huawei (os_type di) then w_connect_handler w (netmiko_params_of di)
  else match w_load w (create_testbed di) with
       | Ret _ => w_connect w {| learn_hostname := true; log_stdout := true |}
       | Raise e => Raise e
       end.

(** The exception a Python [except Exception] clause does not catch. *)
Definition catchable {A} (r : pyres A) : bool :=
  match r with Raise (BaseExc _) => false | _ => true end.

(** All the device's replies to command [i] are results or [Exception]s. *)
Definition catchable_reply (w : world) (i : nat) (c : string) : bool :=
  catchable (w_send_command w i c) && catchable (w_execute w i c)
  && catchable (w_parse w i c).


(** ** Computations that only append to the trace *)

(** A computation that only appends to the trace, independently of what the
    trace already holds. *)
Definition appends {A} (m : M A) : Prop :=
  forall tr, m tr = (fst (m []), (tr ++ snd (m []))%list).

(** What [connect_huawei_device] and [connect_to_device] raise when the
    backend raises [e]. *)
Definition huawei_connect_error (di : device_info) (e : exn) : exn :=
  match e with
  | Exc NetMikoTimeoutException _ =>
      http_exc 500 ("Connection timed out to device " ++ ip_address di)
  | Exc NetMikoAuthenticationException _ =>
      http_exc 500 ("Authentication failed for device " ++ ip_address di)
  | Exc _ _ => http_exc 500 ("Failed to connect to Huawei device: " ++ py_str e)
  | BaseExc m => BaseExc m
  end.

Definition generic_connect_error (e : exn) : exn :=
  match e with
  | Exc _ _ => http_exc 500 ("Failed to connect to device: " ++ py_str e)
  | BaseExc m => BaseExc m
  end.

Definition connect_error (di : device_info) (e : exn) : exn :=
  if is_huawei (os_type di) then huawei_connect_error di e
  else generic_connect_error e.

(** The outer [except Exception as e: raise HTTPException(500, ...)]. *)
Definition wrap_execute_error (e : exn) : exn :=
  match e with
  | Exc _ _ => http_exc 500 ("Error executing commands: " ++ py_str e)
  | BaseExc m => BaseExc m
  end.

Definition is_ok {A} (r : pyres A) : bool :=
  match r with Ret _ => true | Raise _ => false end.

(** The backend calls that open the session. *)
Definition connection_events (w : world) (di : device_info) : list event :=
  if is_huawei (os_type di) then [Ev_netmiko_connect (netmiko_params_of di)]
  else Ev_pyats_load (create_testbed di)
       :: (if is_ok (w_load w (create_testbed di))
           then [Ev_pyats_connect {| learn_hostname := true; log_stdout := true |}]
           else []).

(** ** Statements' vocabulary and concrete inputs *)

(** The two worlds agree on everything except the device's replies to the
    command at position [k]. *)
Definition agree_except (k : nat) (w w' : world) : Prop :=
  w_connect_handler w = w_connect_handler w' /\ w_load w = w_load w' /\
  w_connect w = w_connect w' /\ w_disconnect w = w_disconnect w' /\
  forall j c, j <> k ->
    w_send_command w j c = w_send_command w' j c /\
    w_execute w j c = w_execute w' j c /\ w_parse w j c = w_parse w' j c.

(** The [Exception] raised by the call that runs command [i]
    ([send_command] or [execute]), if any. *)
Definition command_error (w : world) (di : device_info) (i : nat) (c : string)
    : option exn :=
  match (if is_huawei (os_type di) then w_send_command w i c else w_execute w i c) with
  | Raise (Exc cls m) => Some (Exc cls m)
  | _ => None
  end.

(** The same world with other answers from Genie's parser. *)
Definition with_parse (w : world) (p : nat -> string -> pyres parsed) : world :=
  {| w_connect_handler := w_connect_handler w; w_load := w_load w;
     w_connect := w_connect w; w_send_command := w_send_command w;
     w_execute := w_execute w; w_parse := p; w_disconnect := w_disconnect w |}.

(** Causes of a connection failure, as the claims name them. *)
Inductive failure_cause := Timeout | AuthenticationFailure | TransportFailure.

Definition cause_of (e : exn) : failure_cause :=
  match e with
  | Exc NetMikoTimeoutException _ | Exc TimeoutError _ => Timeout
  | Exc NetMikoAuthenticationException _ | Exc CredentialsExhaustedError _ =>
      AuthenticationFailure
  | _ => TransportFailure
  end.

(** The cause [connect_huawei_device] reports: one [except] clause each. *)
Definition netmiko_cause (e : exn) : failure_cause :=
  match e with
  | Exc NetMikoTimeoutException _ => Timeout
  | Exc NetMikoAuthenticationException _ => AuthenticationFailure
  | _ => TransportFailure
  end.

Definition is_parse (ev : event) : bool :=
  match ev with Ev_parse _ _ => true | _ => false end.

Definition has_parsed_output (r : response) : bool :=
  match r with Success _ _ (Some _) => true | _ => false end.

(** A world where every call succeeds. *)
Definition ok_world : world :=
  {| w_connect_handler := fun _ => Ret tt;
     w_load := fun _ => Ret tt;
     w_connect := fun _ => Ret tt;
     w_send_command := fun _ c => Ret ("output of " ++ c);
     w_execute := fun _ c => Ret ("output of " ++ c);
     w_parse := fun _ _ => Ret [("version", "15.2")];
     w_disconnect := Ret tt |}.

Definition with_disconnect (w : world) (d : pyres unit) : world :=
  {| w_connect_handler := w_connect_handler w; w_load := w_load w;
     w_connect := w_connect w; w_send_command := w_send_command w;
     w_execute := w_execute w; w_parse := w_parse w; w_disconnect := d |}.

Definition with_send_command (w : world) (s : nat -> string -> pyres string) : world :=
  {| w_connect_handler := w_connect_handler w; w_load := w_load w;
     w_connect := w_connect w; w_send_command := s;
     w_execute := w_execute w; w_parse := w_parse w; w_disconnect := w_disconnect w |}.

Definition with_connect (w : world) (k : connect_args -> pyres unit) : world :=
  {| w_connect_handler := w_connect_handler w; w_load := w_load w;
     w_connect := k; w_send_command := w_send_command w;
     w_execute := w_execute w; w_parse := w_parse w; w_disconnect := w_disconnect w |}.

Definition with_connect_handler (w : world) (k : netmiko_params -> pyres unit) : world :=
  {| w_connect_handler := k; w_load := w_load w;
     w_connect := w_connect w; w_send_command := w_send_command w;
     w_execute := w_execute w; w_parse := w_parse w; w_disconnect := w_disconnect w |}.

(** Scenario A's descriptor (Cisco IOS) and Scenario B's (Huawei VRPv8). *)
Definition ios_device : device_info :=
  {| os_type := "ios"; ip_address := "10.0.0.1"; username := "admin";
     password := "x"; port := None; secret := None |}.

Definition vrpv8_device : device_info :=
  {| os_type := "vrpv8"; ip_address := "10.0.0.99"; username := "admin";
     password := "x"; port := None; secret := None |}.

Definition scenario_a_request : device_data :=
  {| dd_device_info := ios_device;
     inspection_commands := [Some "show version"; Some "show bogus-command"] |}.

(** A Huawei session whose second command is rejected. *)
Definition rejecting_world : world :=
  with_send_command ok_world
    (fun i c => if Nat.eqb i 1
                then Raise (Exc (OtherException "ReadTimeout") "Pattern not detected")
                else Ret ("output of " ++ c)).


(** Two pyATS sessions that fail for different causes with the same text. *)
Definition pyats_failing_world (cls : exc_class) : world :=
  with_connect ok_world (fun _ => Raise (Exc cls "failed to connect to 10.0.0.1")).

(** Scenario A with a parser that rejects the second command's output. *)
Definition parse_failing_world : world :=
  with_parse ok_world
    (fun i _ => if Nat.eqb i 1
                then Raise (Exc (OtherException "SchemaEmptyParserError") "Parser Output is empty")
                else Ret [("version", "15.2")]).

(** ** main.py: the Cisco and Juniper endpoints *)

(** [execute_cisco_commands]: [process_device_data] under the endpoint's own
    [except Exception]; there is no [os_type] check. *)
Definition execute_cisco_commands (w : world) (dd : device_data) : M report :=
  try_except (process_device_data w dd)
    (fun e => raise (http_exc 500 ("Error processing device data: " ++ py_str e))).

(** [execute_juniper_commands], with its [os_type] check. *)
Definition execute_juniper_commands (w : world) (dd : device_data) : M report :=
  try_except
    (let di := dd_device_info dd in
     if negb (existsb (String.eqb (lower (os_type di))) ["junos"; "junos-evo"])
     then raise (http_exc 400
                   "Invalid OS type for Juniper device. Use 'junos' or 'junos-evo'")
     else process_device_data w dd)
    (fun e => raise (http_exc 500 ("Error processing Juniper device data: " ++ py_str e))).

(** ** main.py: [get_command_pairs]

    The DataFrame enters through its column names [df.columns]; text is
    ASCII. *)

(** [str(i)] for [i] in [range(10)]. *)
Definition digit_str (i : nat) : string := String (ascii_of_nat (48 + i)) "".

(** [any(str(i) in col_lower for i in range(10))] *)
Definition has_digit (s : string) : bool :=
  existsb (fun i => str_in (digit_str i) s) (seq 0 10).

(** [str.isdigit] on one ASCII character. *)
Definition is_digit (c : ascii) : bool :=
  let n := nat_of_ascii c in (48 <=? n)%nat && (n <=? 57)%nat.

(** [filter(str.isdigit, col)], as digit values. *)
Fixpoint digits (s : string) : list nat :=
  match s with
  | EmptyString => []
  | String c s' =>
      if is_digit c then (nat_of_ascii c - 48)%nat :: digits s' else digits s'
  end.

(** [get_number(col) = int(''.join(filter(str.isdigit, col)))].  It is only
    called on columns that contain a digit, where [int] does not fail. *)
Definition get_number (col : string) : nat :=
  fold_left (fun acc d => acc * 10 + d)%nat (digits col) 0%nat.

(** [list.sort(key=...)]: Python's sort is stable; inserting each element in
    front of the first element whose key is not smaller keeps elements with
    equal keys in their original order. *)
Fixpoint insert_by (key : string -> nat) (x : string) (l : list string) : list string :=
  match l with
  | [] => [x]
  | y :: l' => if (key x <=? key y)%nat then x :: y :: l' else y :: insert_by key x l'
  end.

Fixpoint sort_by (key : string -> nat) (l : list string) : list string :=
  match l with
  | [] => []
  | x :: l' => insert_by key x (sort_by key l')
  end.

(** The [for col in df.columns] loop, filling [command_cols] and
    [desc_cols]. *)
Fixpoint classify_columns (columns command_cols desc_cols : list string)
    : list string * list string :=
  match columns with
  | [] => (command_cols, desc_cols)
  | col :: rest =>
      let col_lower := lower col in
      if str_in "command" col_lower && has_digit col_lower then
        classify_columns rest (command_cols ++ [col])%list desc_cols
      else if str_in "description" col_lower && has_digit col_lower then
        classify_columns rest command_cols (desc_cols ++ [col])%list
      else classify_columns rest command_cols desc_cols
  end.

(** [get_command_pairs(df)]; [zip] stops at the shorter list, as [combine]. *)
Definition get_command_pairs (columns : list string) : list (string * string) :=
  let '(command_cols, desc_cols) := classify_columns columns [] [] in
  combine (sort_by get_number command_cols) (sort_by get_number desc_cols).

(** The columns the loop takes as command columns and as description
    columns. *)
Definition is_command_col (col : string) : bool :=
  str_in "command" (lower col) && has_digit (lower col).

Definition is_description_col (col : string) : bool :=
  negb (is_command_col col)
  && str_in "description" (lower col) && has_digit (lower col).

(** ** main.py: [upload_excel] *)

(** A cell as pandas reads it: missing ([NaN]), an integer, or a text. *)
Inductive cell := CNaN | CInt (z : Z) | CStr (s : string).

(** A sheet: its column names and its rows, a row giving the cell of each
    column. *)
Record dataframe := {
  df_columns : list string;
  df_rows : list (string -> cell) }.

(** What the upload reads: [await file.read()], and
    [pd.read_excel(io.BytesIO(contents), sheet_name=...)] on the contents. *)
Record upload_world := {
  u_read : pyres string;
  u_read_excel : string -> string -> pyres dataframe }.

(** [str.endswith(suffix)] *)
Definition ends_with (suffix s : string) : bool :=
  let n := String.length s in
  let k := String.length suffix in
  (k <=? n)%nat && String.eqb (substring (n - k) k s) suffix.

Definition required_device_columns : list string :=
  ["vendor_device_type"; "os_type"; "ip_address"; "username"; "password"; "port"].

Definition required_command_columns : list string := ["os_type"; "command"].

(** [[col for col in required if col not in df.columns]] *)
Definition missing_columns (required columns : list string) : list string :=
  filter (fun col => negb (existsb (String.eqb col) columns)) required.

(** [sep.join(l)] *)
Fixpoint join (sep : string) (l : list string) : string :=
  match l with
  | [] => ""
  | [x] => x
  | x :: l' => x ++ sep ++ join sep l'
  end.

(** [pd.notna] *)
Definition notna (c : cell) : bool := match c with CNaN => false | _ => true end.

(** [str(z)] on an integer. *)
Definition z_str (z : Z) : string :=
  match Z.to_int z with
  | Decimal.Pos u => uint_str u
  | Decimal.Neg u => "-" ++ uint_str u
  end.

(** [str(cell)] *)
Definition str_cell (c : cell) : string :=
  match c with CNaN => "nan" | CInt z => z_str z | CStr s => s end.

(** [str.isspace] on one ASCII character. *)
Definition is_space (c : ascii) : bool :=
  let n := nat_of_ascii c in
  ((9 <=? n)%nat && (n <=? 13)%nat) || ((28 <=? n)%nat && (n <=? 32)%nat).

Fixpoint drop_space (l : list ascii) : list ascii :=
  match l with
  | c :: l' => if is_space c then drop_space l' else l
  | [] => []
  end.

(** [str.strip()] *)
Definition strip (s : string) : string :=
  string_of_list_ascii
    (rev (drop_space (rev (drop_space (list_ascii_of_string s))))).

(** The digits of a decimal integer literal, [_] being allowed between two
    digits; [after_digit] tells whether the previous character was a digit. *)
Fixpoint int_digits (l : list ascii) (acc : Z) (after_digit : bool) : option Z :=
  match l with
  | [] => if after_digit then Some acc else None
  | c :: l' =>
      if is_digit c then
        int_digits l' (acc * 10 + Z.of_nat (nat_of_ascii c - 48))%Z true
      else if Ascii.eqb c "_" && after_digit then int_digits l' acc false
      else None
  end.

(** [int(s)] on a text: surrounding whitespace, an optional sign, then a
    decimal literal; [None] where Python raises [ValueError]. *)
Definition py_int_str (s : string) : option Z :=
  match list_ascii_of_string (strip s) with
  | c :: l =>
      if Ascii.eqb c "-" then option_map Z.opp (int_digits l 0 false)
      else if Ascii.eqb c "+" then int_digits l 0 false
      else int_digits (c :: l) 0 false
  | [] => None
  end.

Definition value_error (msg : string) : exn := Exc (ValueErrorClass "ValueError") msg.

(** [int(cell)] *)
Definition py_int (c : cell) : pyres Z :=
  match c with
  | CInt z => Ret z
  | CStr s =>
      match py_int_str s with
      | Some z => Ret z
      | None => Raise (value_error "invalid literal for int() with base 10")
      end
  | CNaN => Raise (value_error "cannot convert float NaN to integer")
  end.

(** [except ValueError]: [ValueError] and all its subclasses. *)
Definition is_value_error (e : exn) : bool :=
  match e with
  | Exc (ValueErrorClass _) _ => true
  | _ => false
  end.

(** [except pd.errors.EmptyDataError]: pandas' subclass of [ValueError]. *)
Definition is_empty_data_error (e : exn) : bool :=
  match e with
  | Exc (ValueErrorClass n) _ => String.eqb n "EmptyDataError"
  | _ => false
  end.

(** [try: port = int(p) if pd.notna(p) else 22 except ValueError: port = 22] *)
Definition row_port (p : cell) : pyres Z :=
  match (if notna p then py_int p else Ret 22%Z) with
  | Raise e => if is_value_error e then Ret 22%Z else Raise e
  | r => r
  end.

(** [groupby('os_type')] drops [NaN] keys; a key matches an equal cell of the
    same type. *)
Definition cell_key_eqb (a b : cell) : bool :=
  match a, b with
  | CInt x, CInt y => Z.eqb x y
  | CStr x, CStr y => String.eqb x y
  | _, _ => false
  end.

(** [os_type in commands_by_type.groups] *)
Definition in_groups (cmd_rows : list (string -> cell)) (os : cell) : bool :=
  existsb (fun r => cell_key_eqb (r "os_type") os) cmd_rows.

(** [commands_by_type.get_group(os_type)]: the rows of the group, in sheet
    order. *)
Definition get_group (cmd_rows : list (string -> cell)) (os : cell)
    : list (string -> cell) :=
  filter (fun r => cell_key_eqb (r "os_type") os) cmd_rows.

(** [device_commands] of a device row: one [{"command": ...}] per row of the
    group whose command is not [NaN]. *)
Definition device_commands (cmd_rows : list (string -> cell)) (os : cell)
    : list (option string) :=
  if in_groups cmd_rows os then
    map (fun r => Some (strip (str_cell (r "command"))))
        (filter (fun r => notna (r "command")) (get_group cmd_rows os))
  else [].

(** One element of [result]. *)
Record uploaded_device := {
  vendor_device_type : string;
  upload_data : device_data }.

(** The body of [for _, device_row in devices_df.iterrows()]. *)
Definition process_row (cmd_rows : list (string -> cell)) (row : string -> cell)
    : pyres uploaded_device :=
  let os := row "os_type" in
  let cmds := device_commands cmd_rows os in
  match row_port (row "port") with
  | Raise e => Raise e
  | Ret p =>
      Ret {| vendor_device_type := strip (str_cell (row "vendor_device_type"));
             upload_data :=
               {| dd_device_info :=
                    {| os_type := strip (str_cell os);
                       ip_address := strip (str_cell (row "ip_address"));
                       username := strip (str_cell (row "username"));
                       password := strip (str_cell (row "password"));
                       port := Some p;
                       secret := None |};
                  inspection_commands := cmds |} |}
  end.

Fixpoint process_rows (cmd_rows rows : list (string -> cell))
    (result : list uploaded_device) : pyres (list uploaded_device) :=
  match rows with
  | [] => Ret result
  | row :: rest =>
      match process_row cmd_rows row with
      | Ret d => process_rows cmd_rows rest (result ++ [d])%list
      | Raise e => Raise e
      end
  end.

Record upload_response := {
  up_filename : string;
  total_devices : nat;
  up_devices : list uploaded_device }.

(** The [try] block of [upload_excel]. *)
Definition upload_body (u : upload_world) (filename : string) : pyres upload_response :=
  match u_read u with
  | Raise e => Raise e
  | Ret contents =>
      if String.eqb contents "" then Raise (http_exc 400 "File is empty") else
      match u_read_excel u contents "Devices" with
      | Raise e => Raise e
      | Ret devices_df =>
          match u_read_excel u contents "Commands" with
          | Raise e => Raise e
          | Ret commands_df =>
              let md := missing_columns required_device_columns (df_columns devices_df) in
              match md with
              | _ :: _ =>
                  Raise (http_exc 400
                           ("Missing required columns in Devices sheet: " ++ join ", " md))
              | [] =>
                  let mc := missing_columns required_command_columns
                              (df_columns commands_df) in
                  match mc with
                  | _ :: _ =>
                      Raise (http_exc 400
                               ("Missing required columns in Commands sheet: "
                                ++ join ", " mc))
                  | [] =>
                      match process_rows (df_rows commands_df) (df_rows devices_df) [] with
                      | Raise e => Raise e
                      | Ret result =>
                          Ret {| up_filename := filename;
                                 total_devices := length result;
                                 up_devices := result |}
                      end
                  end
              end
          end
      end
  end.

(** The three [except] clauses of [upload_excel]. *)
Definition upload_handler (e : exn) : exn :=
  match e with
  | Exc _ _ =>
      if is_empty_data_error e
      then http_exc 400 "The Excel file is empty or contains no data"
      else if is_value_error e then http_exc 400 ("Invalid port value: " ++ py_str e)
      else http_exc 500 ("Error processing file: " ++ py_str e)
  | BaseExc m => BaseExc m
  end.

(** [upload_excel].  The [if not file] test is left out: FastAPI always
    passes an [UploadFile] object, which is true. *)
Definition upload_excel (u : upload_world) (filename : string) : pyres upload_response :=
  if negb (ends_with ".xlsx" filename || ends_with ".xls" filename)
  then Raise (http_exc 400 "File must be an Excel file (.xlsx or .xls)")
  else match upload_body u filename with
       | Raise e => Raise (upload_handler e)
       | r => r
       end.

(** The port [upload_excel] stores for a port cell. *)
Definition expected_port (c : cell) : Z :=
  match c with
  | CNaN => 22%Z
  | CInt z => z
  | CStr s => get_default (py_int_str s) 22%Z
  end.

(** ** Vocabulary and concrete inputs of the further properties *)

Definition key_le (key : string -> nat) (a b : string) : Prop := (key a <= key b)%nat.

(** What [upload_excel] stores for a device row. *)
Definition uploaded_row (cmd_rows : list (string -> cell)) (row : string -> cell)
    (d : uploaded_device) : Prop :=
  vendor_device_type d = strip (str_cell (row "vendor_device_type")) /\
  dd_device_info (upload_data d) =
    {| os_type := strip (str_cell (row "os_type"));
       ip_address := strip (str_cell (row "ip_address"));
       username := strip (str_cell (row "username"));
       password := strip (str_cell (row "password"));
       port := Some (expected_port (row "port"));
       secret := None |} /\
  inspection_commands (upload_data d) = device_commands cmd_rows (row "os_type").

Definition failing_upload : upload_world :=
  {| u_read := Raise (BaseExc "not read");
     u_read_excel := fun _ _ => Raise (BaseExc "not read") |}.

Definition empty_upload : upload_world :=
  {| u_read := Ret ""; u_read_excel := fun _ _ => Raise (BaseExc "not read") |}.

Definition sheets_upload (devices_df commands_df : dataframe) : upload_world :=
  {| u_read := Ret "PK";
     u_read_excel := fun _ sheet =>
       if String.eqb sheet "Devices" then Ret devices_df else Ret commands_df |}.

Definition old_devices_sheet : dataframe :=
  {| df_columns := ["vendor_device_type"; "device_type"; "ip_address"; "username";
                    "password"; "port"];
     df_rows := [] |}.

Definition commands_sheet : dataframe :=
  {| df_columns := ["os_type"; "command"]; df_rows := [] |}.

Definition no_devices_sheet_upload : upload_world :=
  {| u_read := Ret "PK";
     u_read_excel := fun _ sheet =>
       Raise (value_error ("Worksheet named '" ++ sheet ++ "' not found")) |}.

Definition empty_sheet_upload : upload_world :=
  {| u_read := Ret "PK";
     u_read_excel := fun _ _ =>
       Raise (Exc (ValueErrorClass "EmptyDataError") "No columns to parse from file") |}.

Definition devices_sheet : dataframe :=
  {| df_columns := required_device_columns;
     df_rows :=
       [fun col => if String.eqb col "port" then CStr "ssh" else CStr (" " ++ col ++ " ")] |}.

Lemma bind_appends {A B} (m : M A) (k : A -> M B) tr :
  appends m ->
  bind m k tr =
  match fst (m []) with
  | Ret a => k a (tr ++ snd (m []))%list
  | Raise e => (Raise e, (tr ++ snd (m []))%list)
  end.
Proof.
  intros H. unfold bind. rewrite H. destruct (fst (m [])); reflexivity.
Qed.

Lemma try_except_appends {A} (m : M A) (h : exn -> M A) tr :
  appends m ->
  try_except m h tr =
  match fst (m []) with
  | Raise (Exc cls msg) => h (Exc cls msg) (tr ++ snd (m []))%list
  | r => (r, (tr ++ snd (m []))%list)
  end.
Proof.
  intros H. unfold try_except. rewrite H. destruct (fst (m [])) as [a|[cls msg|msg]]; reflexivity.
Qed.

Ltac oracle_cases x := destruct x as [? | [? ? | ?]].

Lemma huawei_body_appends w i c : appends (huawei_body w i c).
Proof.
  intros tr. unfold huawei_body, try_except, bind, call, ret.
  oracle_cases (w_send_command w i c); simpl; reflexivity.
Qed.

Lemma generic_body_appends w i c : appends (generic_body w i c).
Proof.
  intros tr. unfold generic_body, try_except, bind, call, ret.
  oracle_cases (w_execute w i c); simpl; try reflexivity.
  oracle_cases (w_parse w i c); simpl; rewrite <- ?app_assoc; reflexivity.
Qed.

Lemma huawei_body_events w i c :
  Forall (fun ev => is_command_event ev = true) (snd (huawei_body w i c [])).
Proof.
  unfold huawei_body, try_except, bind, call, ret.
  oracle_cases (w_send_command w i c); simpl; auto.
Qed.

Lemma generic_body_events w i c :
  Forall (fun ev => is_command_event ev = true) (snd (generic_body w i c [])).
Proof.
  unfold generic_body, try_except, bind, call, ret.
  oracle_cases (w_execute w i c); simpl; auto.
  oracle_cases (w_parse w i c); simpl; auto.
Qed.

Lemma for_each_command_spec (P : event -> Prop) (body : nat -> string -> M response)
    i cmds acc tr :
  (forall j c, appends (body j c)) ->
  (forall j c, Forall P (snd (body j c []))) ->
  exists l,
    for_each_command body i cmds acc tr =
      (map_pyres (app acc) (collect (fun j c => fst (body j c [])) i cmds),
       (tr ++ l)%list)
    /\ Forall P l.
Proof.
  intros Happ Hev. revert i acc tr.
  induction cmds as [|c cs IH]; intros i acc tr; simpl.
  - exists []. rewrite app_nil_r. split; [rewrite app_nil_r; reflexivity | constructor].
  - rewrite bind_appends by apply Happ.
    destruct (fst (body i c [])) as [r|e] eqn:Hb.
    + destruct (IH (S i) (acc ++ [r])%list (tr ++ snd (body i c []))%list)
        as [l [Heq Hl]].
      exists (snd (body i c []) ++ l)%list. rewrite Heq, app_assoc. split.
      * destruct (collect _ (S i) cs); simpl; [|reflexivity].
        rewrite <- app_assoc. reflexivity.
      * apply Forall_app. auto.
    + exists (snd (body i c [])). split; [reflexivity | apply Hev].
Qed.

Lemma connect_huawei_device_eq w di tr :
  connect_huawei_device w di tr =
  (match w_connect_handler w (netmiko_params_of di) with
   | Ret u => Ret u
   | Raise e => Raise (huawei_connect_error di e)
   end, (tr ++ [Ev_netmiko_connect (netmiko_params_of di)])%list).
Proof.
  unfold connect_huawei_device, try_except, call.
  destruct (w_connect_handler w (netmiko_params_of di)) as [[]|[cls msg|msg]];
    try reflexivity.
  destruct cls; reflexivity.
Qed.

Lemma connect_to_device_eq w di tr :
  connect_to_device w di tr =
  (match w_load w (create_testbed di) with
   | Ret _ =>
       match w_connect w {| learn_hostname := true; log_stdout := true |} with
       | Ret u => Ret u
       | Raise e => Raise (generic_connect_error e)
       end
   | Raise e => Raise (generic_connect_error e)
   end,
   (tr ++ Ev_pyats_load (create_testbed di)
       :: (if is_ok (w_load w (create_testbed di))
           then [Ev_pyats_connect {| learn_hostname := true; log_stdout := true |}]
           else []))%list).
Proof.
  unfold connect_to_device, try_except, bind, call.
  destruct (w_load w (create_testbed di)) as [[]|[cls msg|msg]]; simpl;
    [| reflexivity | reflexivity].
  rewrite <- app_assoc.
  destruct (w_connect w _) as [[]|[cls msg|msg]]; reflexivity.
Qed.

Ltac loop_spec Hl Hf :=
  lazymatch goal with
  | |- context [for_each_command ?b ?i ?c ?a ?t] =>
      let l := fresh "l" in
      destruct (for_each_command_spec (fun ev => is_command_event ev = true) b i c a t)
        as [l [Hl Hf]];
      [ first [exact (huawei_body_appends _) | exact (generic_body_appends _)]
      | first [exact (huawei_body_events _) | exact (generic_body_events _)]
      | rewrite Hl ]
  end.

(** The outcome of [execute_commands], call by call. *)
Lemma execute_commands_result w di cmds tr :
  fst (execute_commands w di cmds tr) =
  match connection_result w di with
  | Raise e => Raise (wrap_execute_error (connect_error di e))
  | Ret _ =>
      match collect (entry w di) 0 cmds with
      | Raise e => Raise (wrap_execute_error e)
      | Ret rs =>
          match w_disconnect w with
          | Raise e => Raise (wrap_execute_error e)
          | Ret _ => Ret {| report_device_info := di; command_responses := rs |}
          end
      end
  end.
Proof.
  unfold execute_commands, connection_result, connect_error, entry.
  destruct (is_huawei (os_type di)).
  - unfold try_except, bind at 1 2. rewrite connect_huawei_device_eq.
    destruct (w_connect_handler w (netmiko_params_of di)) as [[]|e].
    + unfold bind at 1. loop_spec Hl Hf.
      change (fun j c => fst (huawei_body w j c [])) with (huawei_entry w).
      destruct (collect (huawei_entry w) 0 cmds) as [rs|e]; simpl.
      * unfold disconnect, call, ret. destruct (w_disconnect w) as [[]|[]]; reflexivity.
      * destruct e; reflexivity.
    + destruct e as [cls m|m]; [destruct cls|]; reflexivity.
  - unfold try_except, bind at 1 2. rewrite connect_to_device_eq.
    destruct (w_load w (create_testbed di)) as [[]|e].
    + destruct (w_connect w _) as [[]|e].
      * unfold bind at 1. loop_spec Hl Hf.
        change (fun j c => fst (generic_body w j c [])) with (generic_entry w).
        destruct (collect (generic_entry w) 0 cmds) as [rs|e]; simpl.
        -- unfold disconnect, call, ret. destruct (w_disconnect w) as [[]|[]]; reflexivity.
        -- destruct e; reflexivity.
      * destruct e; reflexivity.
    + destruct e; reflexivity.
Qed.

Ltac trace_fin :=
  refine (conj _ (conj _ _));
  [ rewrite <- ?app_assoc, ?app_nil_r; reflexivity
  | assumption || constructor
  | intros; first [reflexivity | discriminate] ].

(** The calls made by [execute_commands]: connection calls, then the
    commands' calls, then [disconnect] when the loop ran to its end. *)
Lemma execute_commands_trace w di cmds tr :
  exists ll,
    snd (execute_commands w di cmds tr) =
      (tr ++ connection_events w di ++ ll ++
       (if is_ok (connection_result w di) && is_ok (collect (entry w di) 0 cmds)
        then [Ev_disconnect] else []))%list
    /\ Forall (fun ev => is_command_event ev = true) ll
    /\ (is_ok (connection_result w di) = false -> ll = []).
Proof.
  unfold execute_commands, connection_result, connection_events, entry.
  destruct (is_huawei (os_type di)).
  - unfold try_except, bind at 1 2. rewrite connect_huawei_device_eq.
    destruct (w_connect_handler w (netmiko_params_of di)) as [[]|e].
    + unfold bind at 1. loop_spec Hl Hf.
      change (fun j c => fst (huawei_body w j c [])) with (huawei_entry w).
      exists l. destruct (collect (huawei_entry w) 0 cmds) as [rs|e]; simpl.
      * unfold disconnect, call, ret.
        destruct (w_disconnect w) as [[]|[]]; simpl; trace_fin.
      * destruct e; simpl; trace_fin.
    + exists []. destruct e as [cls m|m]; [destruct cls|]; simpl; trace_fin.
  - unfold try_except, bind at 1 2. rewrite connect_to_device_eq.
    destruct (w_load w (create_testbed di)) as [[]|e]; simpl.
    + destruct (w_connect w _) as [[]|e].
      * unfold bind at 1. loop_spec Hl Hf.
        change (fun j c => fst (generic_body w j c [])) with (generic_entry w).
        exists l. destruct (collect (generic_entry w) 0 cmds) as [rs|e]; simpl.
        -- unfold disconnect, call, ret.
           destruct (w_disconnect w) as [[]|[]]; simpl; trace_fin.
        -- destruct e; simpl; trace_fin.
      * exists []. destruct e; simpl; trace_fin.
    + exists []. destruct e; simpl; trace_fin.
Qed.

(** ** The loop's entries *)

Lemma huawei_entry_eq w i c :
  huawei_entry w i c =
  match w_send_command w i c with
  | Ret out => Ret (Success c out None)
  | Raise (Exc cls m) => Ret (Error c (py_str (Exc cls m)))
  | Raise (BaseExc m) => Raise (BaseExc m)
  end.
Proof.
  unfold huawei_entry, huawei_body, try_except, bind, call, ret.
  oracle_cases (w_send_command w i c); reflexivity.
Qed.

Lemma generic_entry_eq w i c :
  generic_entry w i c =
  match w_execute w i c with
  | Ret out =>
      match w_parse w i c with
      | Ret p => Ret (Success c out (Some p))
      | Raise (Exc _ _) => Ret (Success c out None)
      | Raise (BaseExc m) => Raise (BaseExc m)
      end
  | Raise (Exc cls m) => Ret (Error c (py_str (Exc cls m)))
  | Raise (BaseExc m) => Raise (BaseExc m)
  end.
Proof.
  unfold generic_entry, generic_body, try_except, bind, call, ret.
  oracle_cases (w_execute w i c); try reflexivity.
  oracle_cases (w_parse w i c); reflexivity.
Qed.

Lemma entry_command w di i c r : entry w di i c = Ret r -> resp_command r = c.
Proof.
  unfold entry. destruct (is_huawei (os_type di)).
  - rewrite huawei_entry_eq. oracle_cases (w_send_command w i c);
      intros H; inversion H; reflexivity.
  - rewrite generic_entry_eq. oracle_cases (w_execute w i c);
      try (intros H; inversion H; reflexivity).
    oracle_cases (w_parse w i c); intros H; inversion H; reflexivity.
Qed.

Lemma entry_catchable w di i c :
  catchable_reply w i c = true -> is_ok (entry w di i c) = true.
Proof.
  unfold catchable_reply, entry. intros H.
  apply andb_prop in H as [H Hp]. apply andb_prop in H as [Hs He].
  destruct (is_huawei (os_type di)).
  - rewrite huawei_entry_eq. oracle_cases (w_send_command w i c);
      simpl in *; congruence.
  - rewrite generic_entry_eq. oracle_cases (w_execute w i c); simpl in *;
      try congruence.
    oracle_cases (w_parse w i c); simpl in *; congruence.
Qed.

(** ** The loop's outcome *)

Lemma collect_ret f i cmds rs :
  collect f i cmds = Ret rs ->
  length rs = length cmds /\
  forall j c, nth_error cmds j = Some c ->
    exists r, f (i + j) c = Ret r /\ nth_error rs j = Some r.
Proof.
  revert i rs. induction cmds as [|c cs IH]; intros i rs H; simpl in H.
  - inversion H; subst. split; [reflexivity|]. intros [|j] c' Hc; discriminate.
  - destruct (f i c) as [r|e] eqn:Hf; [|discriminate].
    destruct (collect f (S i) cs) as [rs'|e] eqn:Hr; [|discriminate].
    inversion H; subst. destruct (IH _ _ Hr) as [Hlen Hnth].
    split; [simpl; congruence|].
    intros [|j] c' Hc; simpl in Hc.
    + inversion Hc; subst. exists r. rewrite Nat.add_0_r. auto.
    + destruct (Hnth j c' Hc) as [r' [H1 H2]]. exists r'.
      rewrite Nat.add_succ_r. auto.
Qed.

Lemma collect_complete f i cmds :
  (forall j c, nth_error cmds j = Some c -> is_ok (f (i + j) c) = true) ->
  is_ok (collect f i cmds) = true.
Proof.
  revert i. induction cmds as [|c cs IH]; intros i H; simpl; [reflexivity|].
  pose proof (H 0 c eq_refl) as H0. rewrite Nat.add_0_r in H0.
  destruct (f i c) as [r|e]; [|discriminate].
  assert (Hr : is_ok (collect f (S i) cs) = true).
  { apply IH. intros j c' Hc. replace (S i + j) with (i + S j) by lia. apply (H (S j)). exact Hc. }
  destruct (collect f (S i) cs); [reflexivity | discriminate].
Qed.

Lemma collect_ok_inv f i cmds :
  is_ok (collect f i cmds) = true ->
  forall j c, nth_error cmds j = Some c -> is_ok (f (i + j) c) = true.
Proof.
  intros H j c Hc. destruct (collect f i cmds) as [rs|] eqn:E; [|discriminate].
  destruct (collect_ret _ _ _ _ E) as [_ Hn]. destruct (Hn j c Hc) as [r [Hf _]].
  rewrite Hf. reflexivity.
Qed.

(** Two loops whose entries agree everywhere except at the absolute
    position [k], where both entries are appended (not raised). *)
Lemma collect_agree_except f g k i cmds :
  (forall j c, nth_error cmds j = Some c -> i + j <> k -> f (i + j) c = g (i + j) c) ->
  (forall j c, nth_error cmds j = Some c -> i + j = k ->
     is_ok (f k c) = true /\ is_ok (g k c) = true) ->
  is_ok (collect f i cmds) = is_ok (collect g i cmds) /\
  forall rs rs', collect f i cmds = Ret rs -> collect g i cmds = Ret rs' ->
    forall j, i + j <> k -> nth_error rs j = nth_error rs' j.
Proof.
  revert i. induction cmds as [|c cs IH]; intros i Hagree Hok; simpl.
  - split; [reflexivity|]. intros rs rs' H1 H2. inversion H1; inversion H2; subst.
    reflexivity.
  - assert (IH' := IH (S i)).
    destruct IH' as [Hok' Hn'].
    { intros j c' Hc Hne. replace (S i + j) with (i + S j) in * by lia.
      apply (Hagree (S j)); assumption. }
    { intros j c' Hc Heq. apply (Hok (S j)); [exact Hc|]. lia. }
    destruct (Nat.eq_dec i k) as [Hik|Hik].
    + subst k. destruct (Hok 0 c eq_refl (Nat.add_0_r _)) as [Hf Hg].
      destruct (f i c) as [r|]; [|discriminate]. destruct (g i c) as [r'|]; [|discriminate].
      destruct (collect f (S i) cs) as [rs1|] eqn:E1, (collect g (S i) cs) as [rs2|] eqn:E2;
        simpl in Hok'; try discriminate; (split; [reflexivity|]); try discriminate.
      intros rs rs' H1 H2 [|j] Hj; [rewrite Nat.add_0_r in Hj; congruence|].
      inversion H1; inversion H2; subst. simpl.
      apply Hn'; auto. lia.
    + assert (Hfg : f i c = g i c).
      { pose proof (Hagree 0 c eq_refl). rewrite Nat.add_0_r in H. auto. }
      rewrite <- Hfg. destruct (f i c) as [r|e]; [|split; [reflexivity|discriminate]].
      destruct (collect f (S i) cs) as [rs1|] eqn:E1, (collect g (S i) cs) as [rs2|] eqn:E2;
        simpl in Hok'; try discriminate; (split; [reflexivity|]); try discriminate.
      intros rs rs' H1 H2 [|j] Hj; inversion H1; inversion H2; subst; simpl; [reflexivity|].
      apply Hn'; auto. lia.
Qed.

(** ** Strings *)

Lemma lower_app a b : lower (a ++ b) = lower a ++ lower b.
Proof. induction a as [|x a IH]; simpl; [reflexivity | now rewrite IH]. Qed.

Lemma lower_app_inv s a b :
  lower s = a ++ b -> exists s1 s2, s = s1 ++ s2 /\ lower s1 = a /\ lower s2 = b.
Proof.
  revert s. induction a as [|x a IH]; intros s H; simpl in H.
  - exists "", s. auto.
  - destruct s as [|y s]; simpl in H; [discriminate|].
    inversion H; subst. destruct (IH s H2) as [s1 [s2 [-> [H1 H3]]]].
    exists (String y s1), s2. simpl. rewrite H1. auto.
Qed.

Lemma prefix_spec p s : prefix p s = true <-> exists post, s = p ++ post.
Proof.
  revert s. induction p as [|x p IH]; intros s.
  - split; [intros _; exists s; reflexivity | intros _; destruct s; reflexivity].
  - destruct s as [|y s]; simpl.
    + split; [discriminate | intros [post H]; discriminate].
    + destruct (ascii_dec x y) as [->|Hne].
      * rewrite IH. split; intros [post H]; exists post; congruence.
      * split; [discriminate | intros [post H]; inversion H; congruence].
Qed.

Lemma str_in_spec p s : str_in p s = true <-> exists pre post, s = pre ++ p ++ post.
Proof.
  induction s as [|y s IH]; cbn [str_in]; rewrite orb_true_iff, prefix_spec.
  - split.
    + intros [[post H]|H]; [exists "", post; exact H | discriminate].
    + intros [[|z pre] [post H]]; [left; exists post; exact H | discriminate].
  - rewrite IH. split.
    + intros [[post H]|[pre [post H]]].
      * exists "", post. exact H.
      * exists (String y pre), post. simpl. congruence.
    + intros [[|z pre] [post H]].
      * left. exists post. exact H.
      * right. simpl in H. inversion H; subst. exists pre, post. reflexivity.
Qed.

(** [pat in s.lower()] holds exactly when some piece of [s] lowers to [pat]. *)
Lemma str_in_lower p s :
  str_in p (lower s) = true <->
  exists pre mid post, s = pre ++ mid ++ post /\ lower mid = p.
Proof.
  rewrite str_in_spec. split.
  - intros [pre' [post' H]].
    destruct (lower_app_inv s pre' (p ++ post') H) as [pre [rest [-> [_ Hr]]]].
    destruct (lower_app_inv rest p post' Hr) as [mid [post [-> [Hm _]]]].
    exists pre, mid, post. auto.
  - intros [pre [mid [post [-> Hm]]]].
    exists (lower pre), (lower post). rewrite !lower_app, Hm. reflexivity.
Qed.

(** ** Further lemmas *)

Lemma collect_commands f i cmds rs :
  (forall j c r, f j c = Ret r -> resp_command r = c) ->
  collect f i cmds = Ret rs -> map resp_command rs = cmds.
Proof.
  intros Hf. revert i rs. induction cmds as [|c cs IH]; intros i rs H; simpl in H.
  - inversion H. reflexivity.
  - destruct (f i c) as [r|] eqn:E; [|discriminate].
    destruct (collect f (S i) cs) as [rs'|] eqn:E'; [|discriminate].
    inversion H; subst. simpl. rewrite (Hf _ _ _ E), (IH _ _ E'). reflexivity.
Qed.

Lemma extract_commands_pure cs tr :
  extract_commands cs tr = (fst (extract_commands cs []), tr).
Proof.
  revert tr. induction cs as [|[c|] cs IH]; intros tr; simpl; try reflexivity.
  unfold bind. rewrite IH, (IH []). destruct (fst (extract_commands cs [])); reflexivity.
Qed.

Lemma process_device_data_ret w dd tr r :
  fst (process_device_data w dd tr) = Ret r ->
  exists cmds, fst (execute_commands w (dd_device_info dd) cmds tr) = Ret r.
Proof.
  unfold process_device_data, try_except, bind. rewrite extract_commands_pure.
  destruct (fst (extract_commands (inspection_commands dd) [])) as [cmds|[]]; simpl;
    try discriminate.
  intros H. exists cmds.
  destruct (execute_commands w (dd_device_info dd) cmds tr) as [[r'|[]] tr'];
    simpl in *; congruence.
Qed.

Lemma execute_commands_ret w di cmds tr r :
  fst (execute_commands w di cmds tr) = Ret r ->
  connection_result w di = Ret tt /\
  collect (entry w di) 0 cmds = Ret (command_responses r) /\
  w_disconnect w = Ret tt /\ report_device_info r = di.
Proof.
  rewrite execute_commands_result.
  destruct (connection_result w di) as [[]|]; [|discriminate].
  destruct (collect (entry w di) 0 cmds) as [rs|]; [|discriminate].
  destruct (w_disconnect w) as [[]|]; [|discriminate].
  intros H. inversion H. auto.
Qed.

Lemma connection_result_agree k w w' di :
  agree_except k w w' -> connection_result w di = connection_result w' di.
Proof.
  intros (H1 & H2 & H3 & _). unfold connection_result. rewrite H1, H2, H3. reflexivity.
Qed.

Lemma entry_agree k w w' di j c :
  agree_except k w w' -> j <> k -> entry w di j c = entry w' di j c.
Proof.
  intros (_ & _ & _ & _ & H) Hj. destruct (H j c Hj) as (Hs & He & Hp).
  unfold entry. destruct (is_huawei (os_type di));
    [rewrite !huawei_entry_eq, Hs | rewrite !generic_entry_eq, He, Hp]; reflexivity.
Qed.




(** ** Claims *)



(** C1 (counterexample): a Huawei session that opens, answers the command,
    then fails on [disconnect()] yields no report although the connection
    succeeded: the raise in [device.disconnect()] reaches the outer handler. *)
Lemma C1_disconnect_failure_loses_report :
  ~ (forall w di cmds,
       connection_result w di = Ret tt ->
       exists r, fst (execute_commands w di cmds []) = Ret r /\
                 length (command_responses r) = length cmds).
Proof.
  intros H.
  destruct (H (with_disconnect ok_world (Raise (Exc (OtherException "OSError") "Socket is closed")))
              vrpv8_device ["display version"] eq_refl) as [r [Hr _]].
  vm_compute in Hr. discriminate Hr.
Qed.

(** C1 (amended): whenever [execute_commands] returns a report, its
    ["command_responses"] hold exactly one entry per submitted command, in
    input order; and a report is returned whenever the connection succeeds,
    no command's call raises outside the [Exception] class, and
    [disconnect()] returns normally; if [disconnect()] raises, no report is
    returned. *)
Theorem execute_commands_responses_in_order (w : world) (di : device_info)
    (cmds : list string) (tr : list event) :
  (forall r, fst (execute_commands w di cmds tr) = Ret r ->
     map resp_command (command_responses r) = cmds /\
     length (command_responses r) = length cmds) /\
  (connection_result w di = Ret tt ->
   (forall j c, nth_error cmds j = Some c -> catchable_reply w j c = true) ->
   w_disconnect w = Ret tt ->
   exists r, fst (execute_commands w di cmds tr) = Ret r) /\
  (forall e, w_disconnect w = Raise e ->
   forall r, fst (execute_commands w di cmds tr) <> Ret r).
Proof.
  split; [|split].
  - intros r H. destruct (execute_commands_ret _ _ _ _ _ H) as (_ & Hc & _).
    assert (Hm := collect_commands _ _ _ _ (entry_command w di) Hc).
    split; [exact Hm | rewrite <- Hm, length_map; reflexivity].
  - intros Hconn Hcat Hdisc. rewrite execute_commands_result, Hconn, Hdisc.
    assert (Hok : is_ok (collect (entry w di) 0 cmds) = true).
    { apply collect_complete. intros j c Hj. apply entry_catchable, Hcat, Hj. }
    destruct (collect (entry w di) 0 cmds); [eexists; reflexivity | discriminate].
  - intros e He r H. destruct (execute_commands_ret _ _ _ _ _ H) as (_ & _ & Hd & _).
    congruence.
Qed.

Lemma execute_commands_responses_in_order_witness :
  map resp_command [Success "show version" "output of show version" (Some [("version", "15.2")]);
                    Success "show bogus-command" "output of show bogus-command" (Some [("version", "15.2")])]
    = ["show version"; "show bogus-command"] /\
  (exists r, fst (execute_commands ok_world ios_device
                    ["show version"; "show bogus-command"] []) = Ret r) /\
  (forall r, fst (execute_commands
                    (with_disconnect ok_world
                       (Raise (Exc (OtherException "OSError") "Socket is closed")))
                    vrpv8_device ["display version"] []) <> Ret r).
Proof.
  split; [reflexivity|]. split.
  - apply (proj1 (proj2 (execute_commands_responses_in_order ok_world ios_device
                           ["show version"; "show bogus-command"] []))).
    + reflexivity.
    + intros [|[|j]] c Hc; simpl in Hc; try discriminate; inversion Hc; reflexivity.
    + reflexivity.
  - apply (proj2 (proj2 (execute_commands_responses_in_order
                           (with_disconnect ok_world
                              (Raise (Exc (OtherException "OSError") "Socket is closed")))
                           vrpv8_device ["display version"] []))
             (Exc (OtherException "OSError") "Socket is closed")).
    reflexivity.
Defined.

(** C6: [is_huawei] (the family test of [execute_commands]) holds exactly
    when the platform identifier contains ["huawei"], ["vrp"] or ["vrpv8"]
    in some letter case; it only depends on the lowercased identifier, so
    ["VRPV8"] and ["vrpv8"] land in the same family. *)
Theorem is_huawei_case_insensitive_substring (s : string) :
  (is_huawei s = true <->
   exists p pre mid post,
     In p ["huawei"; "vrp"; "vrpv8"] /\ s = pre ++ mid ++ post /\ lower mid = p) /\
  (forall t, lower t = lower s -> is_huawei t = is_huawei s) /\
  is_huawei "VRPV8" = is_huawei "vrpv8" /\ is_huawei "VRPV8" = true.
Proof.
  split; [|split; [|split; reflexivity]].
  - unfold is_huawei. rewrite existsb_exists. split.
    + intros [p [Hin Hp]]. apply str_in_lower in Hp as (pre & mid & post & Hs & Hm).
      exists p, pre, mid, post. auto.
    + intros (p & pre & mid & post & Hin & Hs & Hm). exists p. split; [exact Hin|].
      apply str_in_lower. exists pre, mid, post. auto.
  - intros t Ht. unfold is_huawei. rewrite Ht. reflexivity.
Qed.

(** C7: the testbed built by [create_testbed] uses port 22 when the
    descriptor has no port, and carries an enable credential exactly when
    the descriptor's secret is a non-empty string (then equal to it); the
    enable credential is never the empty string. *)
Theorem create_testbed_port_and_enable (di : device_info) :
  exists d,
    devices (create_testbed di) = [(ip_address di, d)] /\
    (port di = None -> cli_port (tb_cli d) = 22%Z) /\
    (forall p, port di = Some p -> cli_port (tb_cli d) = p) /\
    (forall x, enable (tb_credentials d) = Some x <-> secret di = Some x /\ x <> "") /\
    enable (tb_credentials d) <> Some "".
Proof.
  unfold create_testbed, truthy_str. eexists. split; [reflexivity|].
  destruct (secret di) as [s|] eqn:Hsec; [destruct (String.eqb s "") eqn:Es|]; simpl;
    (refine (conj _ (conj _ (conj _ _)));
     [ intros Hp; rewrite Hp; reflexivity
     | intros p Hp; rewrite Hp; reflexivity
     | intros x; split
     | ]).
  - discriminate.
  - intros [H1 H2]. inversion H1; subst. apply String.eqb_eq in Es. contradiction.
  - discriminate.
  - intros H. inversion H; subst. split; [reflexivity | apply String.eqb_neq; exact Es].
  - intros [H _]. inversion H. reflexivity.
  - intros H. inversion H; subst. discriminate Es.
  - discriminate.
  - intros [H _]. discriminate H.
  - discriminate.
Qed.

Lemma create_testbed_port_and_enable_witness :
  exists d, devices (create_testbed ios_device) = [("10.0.0.1", d)] /\
            cli_port (tb_cli d) = 22%Z /\ enable (tb_credentials d) = None.
Proof.
  destruct (create_testbed_port_and_enable ios_device) as (d & Hd & Hp & _ & He & _).
  exists d. split; [exact Hd|]. split; [apply Hp; reflexivity|].
  destruct (enable (tb_credentials d)) as [x|] eqn:E; [|reflexivity].
  destruct (proj1 (He x) eq_refl) as [E' _]. discriminate E'.
Defined.

(** C10: a report returned by [process_device_data] carries the request's
    [device_info] unchanged, password and secret included. *)
Theorem report_echoes_device_info (w : world) (dd : device_data) (tr : list event)
    (r : report) (H : fst (process_device_data w dd tr) = Ret r) :
  report_device_info r = dd_device_info dd /\
  password (report_device_info r) = password (dd_device_info dd) /\
  secret (report_device_info r) = secret (dd_device_info dd).
Proof.
  destruct (process_device_data_ret _ _ _ _ H) as [cmds Hc].
  destruct (execute_commands_ret _ _ _ _ _ Hc) as (_ & _ & _ & Hdi).
  rewrite Hdi. auto.
Qed.

Lemma report_echoes_device_info_witness :
  exists r, fst (process_device_data ok_world scenario_a_request []) = Ret r /\
            password (report_device_info r) = "x".
Proof.
  eexists. split; [vm_compute; reflexivity|].
  apply (report_echoes_device_info ok_world scenario_a_request []).
  vm_compute. reflexivity.
Defined.

Lemma entry_error w di i c e :
  command_error w di i c = Some e -> entry w di i c = Ret (Error c (py_str e)).
Proof.
  unfold command_error, entry. destruct (is_huawei (os_type di)).
  - rewrite huawei_entry_eq. oracle_cases (w_send_command w i c); intros H;
      inversion H; reflexivity.
  - rewrite generic_entry_eq. oracle_cases (w_execute w i c); intros H;
      inversion H; reflexivity.
Qed.


(** The two loops of worlds that differ only at command [i]. *)
Lemma collect_agree_worlds w w' di cmds i c :
  nth_error cmds i = Some c -> agree_except i w w' ->
  catchable_reply w i c = true -> catchable_reply w' i c = true ->
  is_ok (collect (entry w di) 0 cmds) = is_ok (collect (entry w' di) 0 cmds) /\
  forall rs rs', collect (entry w di) 0 cmds = Ret rs ->
    collect (entry w' di) 0 cmds = Ret rs' ->
    forall j, j <> i -> nth_error rs j = nth_error rs' j.
Proof.
  intros Hc Hag Hw Hw'.
  destruct (collect_agree_except (entry w di) (entry w' di) i 0 cmds) as [H1 H2].
  - intros j c' _ Hj. apply (entry_agree i). exact Hag. exact Hj.
  - intros j c' Hj Heq. simpl in Heq. subst j. rewrite Hc in Hj. inversion Hj; subst.
    split; apply entry_catchable; assumption.
  - split; [exact H1|]. intros rs rs' E E' j Hj. apply (H2 rs rs' E E' j). exact Hj.
Qed.

(** C2: a per-command failure (an [Exception] raised by the call running
    command [i]) is appended as an [Error] entry for that command and the
    loop goes on with command [i+1]; whether the command at [i] succeeds or
    fails changes neither whether a report is returned nor any other entry. *)
Theorem command_failure_isolated (w w' : world) (di : device_info)
    (cmds : list string) (i : nat) (c : string)
    (Hc : nth_error cmds i = Some c) (Hagree : agree_except i w w')
    (Hw : catchable_reply w i c = true) (Hw' : catchable_reply w' i c = true) :
  is_ok (fst (execute_commands w di cmds [])) = is_ok (fst (execute_commands w' di cmds [])) /\
  (forall r r', fst (execute_commands w di cmds []) = Ret r ->
     fst (execute_commands w' di cmds []) = Ret r' ->
     forall j, j <> i -> nth_error (command_responses r) j = nth_error (command_responses r') j) /\
  (forall e, command_error w di i c = Some e ->
     (forall rest, collect (entry w di) i (c :: rest) =
                   map_pyres (cons (Error c (py_str e))) (collect (entry w di) (S i) rest)) /\
     (forall r, fst (execute_commands w di cmds []) = Ret r ->
        nth_error (command_responses r) i = Some (Error c (py_str e)) /\
        length (command_responses r) = length cmds)).
Proof.
  destruct (collect_agree_worlds w w' di cmds i c Hc Hagree Hw Hw') as [Hok Hnth].
  split; [|split].
  - rewrite !execute_commands_result, (connection_result_agree i w w' di Hagree).
    destruct Hagree as (_ & _ & _ & Hd & _). rewrite Hd.
    destruct (connection_result w' di); [|reflexivity].
    destruct (collect (entry w di) 0 cmds), (collect (entry w' di) 0 cmds);
      simpl in Hok; try discriminate; [|reflexivity].
    destruct (w_disconnect w'); reflexivity.
  - intros r r' Hr Hr' j Hj.
    destruct (execute_commands_ret _ _ _ _ _ Hr) as (_ & E & _).
    destruct (execute_commands_ret _ _ _ _ _ Hr') as (_ & E' & _).
    exact (Hnth _ _ E E' j Hj).
  - intros e He. assert (Hent := entry_error _ _ _ _ _ He). split.
    + intros rest. simpl. rewrite Hent.
      destruct (collect (entry w di) (S i) rest); reflexivity.
    + intros r Hr. destruct (execute_commands_ret _ _ _ _ _ Hr) as (_ & E & _).
      destruct (collect_ret _ _ _ _ E) as [Hlen Hn].
      destruct (Hn i c Hc) as (r0 & Hf & Hr0). simpl in Hf. rewrite Hent in Hf.
      inversion Hf; subst. auto.
Qed.

Lemma command_failure_isolated_witness :
  nth_error (command_responses
               {| report_device_info := vrpv8_device;
                  command_responses := [Success "display version" "output of display version" None;
                                        Error "display bogus" "Pattern not detected"] |}) 0
  = Some (Success "display version" "output of display version" None) /\
  is_ok (fst (execute_commands rejecting_world vrpv8_device ["display version"; "display bogus"] []))
  = is_ok (fst (execute_commands ok_world vrpv8_device ["display version"; "display bogus"] [])).
Proof.
  split; [reflexivity|].
  refine (proj1 (command_failure_isolated rejecting_world ok_world vrpv8_device
                   ["display version"; "display bogus"] 1 "display bogus"
                   eq_refl _ eq_refl eq_refl)).
  refine (conj eq_refl (conj eq_refl (conj eq_refl (conj eq_refl _)))).
  intros k c' Hk. simpl. destruct (Nat.eqb_spec k 1); [contradiction|].
  repeat split.
Defined.




(** C4: when the session cannot be opened, [execute_commands] raises and
    issues no command; for Scenario B (a VRPv8 host whose Netmiko connect,
    with its 30 second timeout, times out) the error is the timeout one;
    and the Huawei entry point rejects a non-Huawei [os_type] before any
    backend call. *)
Theorem connection_failure_fails_request :
  (forall w di cmds e,
     connection_result w di = Raise e ->
     fst (execute_commands w di cmds []) = Raise (wrap_execute_error (connect_error di e)) /\
     Forall (fun ev => is_command_event ev = false) (snd (execute_commands w di cmds []))) /\
  (forall w cmds m,
     w_connect_handler w (netmiko_params_of vrpv8_device) = Raise (Exc NetMikoTimeoutException m) ->
     timeout (netmiko_params_of vrpv8_device) = 30 /\
     fst (execute_commands w vrpv8_device cmds []) =
       Raise (http_exc 500 "Error executing commands: 500: Connection timed out to device 10.0.0.99") /\
     snd (execute_commands w vrpv8_device cmds []) =
       [Ev_netmiko_connect (netmiko_params_of vrpv8_device)]) /\
  (forall w dd,
     existsb (String.eqb (lower (os_type (dd_device_info dd)))) ["huawei"; "vrp"; "vrpv8"] = false ->
     execute_huawei_commands w dd [] =
       (Raise (http_exc 500 ("Error processing Huawei device data: 400: " ++
          "Invalid OS type for Huawei device. Use 'huawei', 'vrp', or 'vrpv8'")), [])).
Proof.
  split; [|split].
  - intros w di cmds e He. rewrite execute_commands_result, He. split; [reflexivity|].
    destruct (execute_commands_trace w di cmds []) as (ll & Heq & _ & Hll).
    rewrite He in Heq, Hll. rewrite (Hll eq_refl) in Heq. rewrite Heq. simpl.
    rewrite app_nil_r. unfold connection_events.
    destruct (is_huawei (os_type di)); [repeat constructor|].
    destruct (is_ok (w_load w (create_testbed di))); repeat constructor.
  - intros w cmds m H.
    assert (Hh : is_huawei (os_type vrpv8_device) = true) by reflexivity.
    assert (Hc : connection_result w vrpv8_device = Raise (Exc NetMikoTimeoutException m)).
    { unfold connection_result. rewrite Hh. exact H. }
    split; [reflexivity|]. split.
    + rewrite execute_commands_result, Hc. reflexivity.
    + destruct (execute_commands_trace w vrpv8_device cmds []) as (ll & Heq & _ & Hll).
      rewrite Hc in Heq, Hll. rewrite (Hll eq_refl) in Heq. rewrite Heq.
      unfold connection_events. rewrite Hh. reflexivity.
  - intros w dd H. unfold execute_huawei_commands, try_except. rewrite H. reflexivity.
Qed.

Lemma connection_failure_fails_request_witness :
  timeout (netmiko_params_of vrpv8_device) = 30 /\
  fst (execute_commands
         (with_connect_handler ok_world (fun _ => Raise (Exc NetMikoTimeoutException "timed out")))
         vrpv8_device ["display version"] []) =
    Raise (http_exc 500 "Error executing commands: 500: Connection timed out to device 10.0.0.99").
Proof.
  destruct (proj1 (proj2 connection_failure_fails_request)
              (with_connect_handler ok_world (fun _ => Raise (Exc NetMikoTimeoutException "timed out")))
              ["display version"] "timed out" eq_refl) as (H1 & H2 & _).
  split; [exact H1 | exact H2].
Defined.

(** C5 (counterexample): on the Generic family a timeout (a [TimeoutError],
    which prints its message as given) and a transport failure (unicon's
    [ConnectionError], whose message is "failed to connect to" and the
    device) with the same text give the same error. *)
Lemma C5_generic_causes_not_distinguished :
  ~ (forall w1 w2 di e1 e2,
       connection_result w1 di = Raise e1 -> connection_result w2 di = Raise e2 ->
       catchable (Raise e1 : pyres unit) = true -> catchable (Raise e2 : pyres unit) = true ->
       cause_of e1 <> cause_of e2 ->
       fst (execute_commands w1 di [] []) <> fst (execute_commands w2 di [] [])).
Proof.
  intros H.
  apply (H (pyats_failing_world TimeoutError)
           (pyats_failing_world (OtherException "ConnectionError"))
           ios_device _ _ eq_refl eq_refl eq_refl eq_refl).
  - discriminate.
  - reflexivity.
Qed.

(** C5 (amended): [connect_huawei_device] reports its three [except]
    clauses (Netmiko timeout, Netmiko authentication failure, any other
    [Exception]) with three different errors; [connect_to_device] reports
    every [Exception] of pyATS as ["Failed to connect to device: "] followed
    by its text, whatever its cause. *)
Theorem connect_failure_causes :
  (forall w1 w2 di e1 e2,
     w_connect_handler w1 (netmiko_params_of di) = Raise e1 ->
     w_connect_handler w2 (netmiko_params_of di) = Raise e2 ->
     catchable (Raise e1 : pyres unit) = true -> catchable (Raise e2 : pyres unit) = true ->
     netmiko_cause e1 <> netmiko_cause e2 ->
     fst (connect_huawei_device w1 di []) <> fst (connect_huawei_device w2 di [])) /\
  (forall w di e,
     connection_result w di = Raise e -> is_huawei (os_type di) = false ->
     catchable (Raise e : pyres unit) = true ->
     fst (connect_to_device w di []) =
       Raise (http_exc 500 ("Failed to connect to device: " ++ py_str e))).
Proof.
  split.
  - intros w1 w2 di e1 e2 H1 H2 Hc1 Hc2 Hne.
    rewrite !connect_huawei_device_eq, H1, H2. simpl.
    destruct e1 as [cls1 m1|]; [|discriminate]. destruct e2 as [cls2 m2|]; [|discriminate].
    destruct cls1, cls2; simpl in *; try congruence; intros H; inversion H.
  - intros w di e H Hh Hc. unfold connection_result in H. rewrite Hh in H.
    rewrite connect_to_device_eq. simpl.
    destruct e as [cls m|]; [|discriminate].
    destruct (w_load w (create_testbed di)) as [[]|e']; [rewrite H; reflexivity|].
    inversion H; subst. reflexivity.
Qed.

Lemma connect_failure_causes_witness :
  fst (connect_huawei_device
         (with_connect_handler ok_world (fun _ => Raise (Exc NetMikoTimeoutException "t")))
         vrpv8_device [])
  <> fst (connect_huawei_device
            (with_connect_handler ok_world (fun _ => Raise (Exc NetMikoAuthenticationException "a")))
            vrpv8_device []) /\
  fst (connect_to_device (pyats_failing_world TimeoutError) ios_device []) =
    Raise (http_exc 500 ("Failed to connect to device: " ++ "failed to connect to 10.0.0.1")).
Proof.
  split.
  - apply (proj1 connect_failure_causes _ _ vrpv8_device
             (Exc NetMikoTimeoutException "t") (Exc NetMikoAuthenticationException "a"));
      try reflexivity; discriminate.
  - apply (proj2 connect_failure_causes _ ios_device (Exc TimeoutError "failed to connect to 10.0.0.1"));
      reflexivity.
Defined.

Lemma collect_forall (Q : response -> Prop) f i cmds rs :
  (forall j c r, f j c = Ret r -> Q r) -> collect f i cmds = Ret rs -> Forall Q rs.
Proof.
  intros Hf. revert i rs. induction cmds as [|c cs IH]; intros i rs H; simpl in H.
  - inversion H. constructor.
  - destruct (f i c) as [r|] eqn:E; [|discriminate].
    destruct (collect f (S i) cs) as [rs'|] eqn:E'; [|discriminate].
    inversion H; subst. constructor; [exact (Hf _ _ _ E) | exact (IH _ _ E')].
Qed.

Lemma collect_ok_ext f g i cmds :
  (forall j c, is_ok (f j c) = is_ok (g j c)) ->
  is_ok (collect f i cmds) = is_ok (collect g i cmds).
Proof.
  intros Hfg. revert i. induction cmds as [|c cs IH]; intros i; simpl; [reflexivity|].
  specialize (Hfg i c). specialize (IH (S i)).
  destruct (f i c), (g i c); simpl in Hfg; try discriminate; [|reflexivity].
  destruct (collect f (S i) cs), (collect g (S i) cs); simpl in *; congruence.
Qed.

Lemma huawei_body_parse_free w i c :
  Forall (fun ev => is_parse ev = false) (snd (huawei_body w i c [])).
Proof.
  unfold huawei_body, try_except, bind, call, ret.
  oracle_cases (w_send_command w i c); simpl; auto.
Qed.

(** The Huawei path never calls Genie's [parse]. *)
Lemma huawei_trace_parse_free w di cmds :
  is_huawei (os_type di) = true ->
  Forall (fun ev => is_parse ev = false) (snd (execute_commands w di cmds [])).
Proof.
  intros Hh. unfold execute_commands. rewrite Hh.
  unfold try_except, bind at 1 2. rewrite connect_huawei_device_eq.
  destruct (w_connect_handler w (netmiko_params_of di)) as [[]|e].
  - unfold bind at 1.
    lazymatch goal with
    | |- context [for_each_command ?b ?i ?c ?a ?t] =>
        destruct (for_each_command_spec (fun ev => is_parse ev = false) b i c a t
                    (huawei_body_appends w) (huawei_body_parse_free w)) as [l [Hl Hf]];
        rewrite Hl
    end. destruct (collect _ 0 cmds) as [rs|e]; simpl.
    + unfold disconnect, call, ret.
      destruct (w_disconnect w) as [[]|[]]; simpl;
        (constructor; [reflexivity | apply Forall_app; split; [exact Hf | repeat constructor]]).
    + destruct e; simpl; constructor; auto.
  - destruct e as [cls m|m]; [destruct cls|]; simpl; repeat constructor.
Qed.

(** C8: on the Generic family, a command whose output was read but whose
    parse raised an [Exception] is appended as a success with its raw output
    and no ["parsed_output"]; how the parser answers (result or [Exception])
    never changes whether the batch completes.  On the Huawei family the
    parser is never called: the run does not depend on it and no entry
    carries ["parsed_output"]. *)
Theorem parse_failure_keeps_raw_output (w : world) (di : device_info) (cmds : list string) :
  (is_huawei (os_type di) = false ->
   (forall r i c out cls m,
      fst (execute_commands w di cmds []) = Ret r -> nth_error cmds i = Some c ->
      w_execute w i c = Ret out -> w_parse w i c = Raise (Exc cls m) ->
      nth_error (command_responses r) i = Some (Success c out None)) /\
   (forall p,
      (forall j c, catchable (w_parse w j c) = true) -> (forall j c, catchable (p j c) = true) ->
      is_ok (fst (execute_commands w di cmds [])) =
      is_ok (fst (execute_commands (with_parse w p) di cmds [])))) /\
  (is_huawei (os_type di) = true ->
   (forall p, execute_commands (with_parse w p) di cmds [] = execute_commands w di cmds []) /\
   (forall r, fst (execute_commands w di cmds []) = Ret r ->
      Forall (fun x => has_parsed_output x = false) (command_responses r)) /\
   Forall (fun ev => is_parse ev = false) (snd (execute_commands w di cmds []))).
Proof.
  split; intros Hh.
  - split.
    + intros r i c out cls m Hr Hc He Hp.
      destruct (execute_commands_ret _ _ _ _ _ Hr) as (_ & E & _).
      destruct (collect_ret _ _ _ _ E) as [_ Hn].
      destruct (Hn i c Hc) as (r0 & Hf & Hr0). simpl in Hf.
      unfold entry in Hf. rewrite Hh, generic_entry_eq, He, Hp in Hf.
      inversion Hf; subst. exact Hr0.
    + intros p Hw Hpc. rewrite !execute_commands_result.
      change (connection_result (with_parse w p) di) with (connection_result w di).
      change (w_disconnect (with_parse w p)) with (w_disconnect w).
      assert (Hok : is_ok (collect (entry w di) 0 cmds) =
                    is_ok (collect (entry (with_parse w p) di) 0 cmds)).
      { apply collect_ok_ext. intros j c. unfold entry. rewrite Hh, !generic_entry_eq.
        simpl. specialize (Hw j c). specialize (Hpc j c).
        destruct (w_execute w j c) as [out|[]]; [|reflexivity|reflexivity].
        destruct (w_parse w j c) as [|[]], (p j c) as [|[]]; simpl in *;
          first [reflexivity | discriminate]. }
      destruct (connection_result w di); [|reflexivity].
      destruct (collect (entry w di) 0 cmds), (collect (entry (with_parse w p) di) 0 cmds);
        simpl in Hok; try discriminate; [|reflexivity].
      destruct (w_disconnect w); reflexivity.
  - split; [|split].
    + intros p. unfold execute_commands. rewrite Hh. reflexivity.
    + intros r Hr. destruct (execute_commands_ret _ _ _ _ _ Hr) as (_ & E & _).
      refine (collect_forall (fun x => has_parsed_output x = false) _ _ _ _ _ E).
      intros j c r0 H. unfold entry in H. rewrite Hh, huawei_entry_eq in H.
      oracle_cases (w_send_command w j c); inversion H; reflexivity.
    + apply huawei_trace_parse_free. exact Hh.
Qed.

Lemma parse_failure_keeps_raw_output_witness :
  exists r,
    fst (execute_commands parse_failing_world ios_device
           ["show version"; "show bogus-command"] []) = Ret r /\
    nth_error (command_responses r) 1 =
      Some (Success "show bogus-command" "output of show bogus-command" None).
Proof.
  eexists. split; [vm_compute; reflexivity|].
  apply (proj1 (proj1 (parse_failure_keeps_raw_output parse_failing_world ios_device
                         ["show version"; "show bogus-command"]) eq_refl)
           _ 1 "show bogus-command" "output of show bogus-command"
           (OtherException "SchemaEmptyParserError") "Parser Output is empty");
    vm_compute; reflexivity.
Defined.

(** C9 (counterexample): a Generic-family session is opened with
    [log_stdout=True]; no caller option turns it off. *)
Lemma C9_generic_session_echoes_stdout :
  ~ (forall w di cmds a,
       is_huawei (os_type di) = false ->
       In (Ev_pyats_connect a) (snd (execute_commands w di cmds [])) ->
       log_stdout a = false).
Proof.
  intros H.
  assert (Hin : In (Ev_pyats_connect {| learn_hostname := true; log_stdout := true |})
                   (snd (execute_commands ok_world ios_device ["show version"] []))).
  { vm_compute. right. left. reflexivity. }
  specialize (H ok_world ios_device ["show version"] _ eq_refl Hin).
  discriminate H.
Qed.

(** C9 (amended): every pyATS [device.connect] call of [execute_commands]
    passes [learn_hostname=True, log_stdout=True], and on the Generic family
    that call is made as soon as the testbed loads. *)
Theorem pyats_connect_echoes_stdout (w : world) (di : device_info) (cmds : list string) :
  (forall a, In (Ev_pyats_connect a) (snd (execute_commands w di cmds [])) ->
     log_stdout a = true /\ learn_hostname a = true) /\
  (is_huawei (os_type di) = false -> is_ok (w_load w (create_testbed di)) = true ->
   In (Ev_pyats_connect {| learn_hostname := true; log_stdout := true |})
      (snd (execute_commands w di cmds []))).
Proof.
  destruct (execute_commands_trace w di cmds []) as (ll & Heq & Hll & _).
  rewrite Heq. simpl. split.
  - intros a Hin. apply in_app_or in Hin as [Hin|Hin].
    + unfold connection_events in Hin.
      destruct (is_huawei (os_type di)); [destruct Hin as [H|[]]; discriminate|].
      destruct Hin as [H|Hin]; [discriminate|].
      destruct (is_ok (w_load w (create_testbed di))); [|destruct Hin].
      destruct Hin as [H|[]]. inversion H. auto.
    + apply in_app_or in Hin as [Hin|Hin].
      * rewrite Forall_forall in Hll. specialize (Hll _ Hin). discriminate Hll.
      * destruct (_ && _); [destruct Hin as [H|[]]; discriminate | destruct Hin].
  - intros Hh Hl. apply in_or_app. left. unfold connection_events. rewrite Hh, Hl.
    right. left. reflexivity.
Qed.

Lemma pyats_connect_echoes_stdout_witness :
  In (Ev_pyats_connect {| learn_hostname := true; log_stdout := true |})
     (snd (execute_commands ok_world ios_device ["show version"] [])).
Proof.
  apply (proj2 (pyats_connect_echoes_stdout ok_world ios_device ["show version"]));
    reflexivity.
Defined.

(** ** Further properties: the request handlers and the Excel upload *)

(** *** Exception handlers *)

(** An [except Exception as e: raise HTTPException(status, pre + str(e))]
    only lets that [HTTPException] out among [Exception]s. *)
Lemma try_except_http {A} (m : M A) status pre tr cls msg :
  fst (try_except m (fun e => raise (http_exc status (pre ++ py_str e))) tr)
    = Raise (Exc cls msg) ->
  cls = HTTPException status /\ exists d, msg = pre ++ d.
Proof.
  unfold try_except. destruct (m tr) as [[a|[c0 m0|m0]] tr']; simpl; intros H;
    inversion H; subst; eauto.
Qed.

(** A handler that only raises leaves the trace as the body left it. *)
Lemma try_except_raise_snd {A} (m : M A) (f : exn -> exn) tr :
  snd (try_except m (fun e => raise (f e)) tr) = snd (m tr).
Proof.
  unfold try_except. destruct (m tr) as [[a|[c0 m0|m0]] tr']; reflexivity.
Qed.

(** *** Extracting the commands of a request *)

Lemma extract_commands_none cs tr :
  In None cs -> extract_commands cs tr = (Raise (Exc KeyError "'command'"), tr).
Proof.
  induction cs as [|[c|] cs IH]; simpl; intros H.
  - destruct H.
  - destruct H as [H|H]; [discriminate|]. unfold bind. rewrite (IH H). reflexivity.
  - reflexivity.
Qed.

Lemma extract_commands_map_some cmds tr :
  extract_commands (map Some cmds) tr = (Ret cmds, tr).
Proof.
  induction cmds as [|c cmds IH]; simpl; [reflexivity|].
  unfold bind. rewrite IH. reflexivity.
Qed.

Lemma no_none_map_some (cs : list (option string)) :
  ~ In None cs -> exists cmds, cs = map Some cmds.
Proof.
  induction cs as [|[c|] cs IH]; simpl; intros H.
  - exists []. reflexivity.
  - destruct IH as [cmds ->]; [tauto|]. exists (c :: cmds). reflexivity.
  - exfalso. apply H. left. reflexivity.
Qed.

(** With every ['command'] key present, [process_device_data] makes the calls
    of [execute_commands]. *)
Lemma process_device_data_calls w di cmds tr :
  snd (process_device_data w {| dd_device_info := di;
                                inspection_commands := map Some cmds |} tr)
  = snd (execute_commands w di cmds tr).
Proof.
  unfold process_device_data. rewrite try_except_raise_snd. simpl.
  unfold bind. rewrite extract_commands_map_some. reflexivity.
Qed.

Lemma connect_error_exc di cls m :
  exists d, connect_error di (Exc cls m) = http_exc 500 d.
Proof.
  unfold connect_error, huawei_connect_error, generic_connect_error.
  destruct (is_huawei (os_type di)); [destruct cls|]; eexists; reflexivity.
Qed.

(** *** The endpoints' [os_type] checks *)

Lemma existsb_eqb_in (s : string) l : existsb (String.eqb s) l = true -> In s l.
Proof.
  intros H. apply existsb_exists in H as [x [Hin Hx]].
  apply String.eqb_eq in Hx. subst. exact Hin.
Qed.

Lemma execute_huawei_commands_accepted_calls w dd tr :
  existsb (String.eqb (lower (os_type (dd_device_info dd)))) ["huawei"; "vrp"; "vrpv8"]
    = true ->
  snd (execute_huawei_commands w dd tr) = snd (process_device_data w dd tr).
Proof.
  intros H. unfold execute_huawei_commands. cbv zeta. rewrite H.
  apply try_except_raise_snd.
Qed.

Lemma execute_juniper_commands_accepted_calls w dd tr :
  existsb (String.eqb (lower (os_type (dd_device_info dd)))) ["junos"; "junos-evo"]
    = true ->
  snd (execute_juniper_commands w dd tr) = snd (process_device_data w dd tr).
Proof.
  intros H. unfold execute_juniper_commands. cbv zeta. rewrite H.
  apply try_except_raise_snd.
Qed.

(** *** Sorting and pairing columns *)

Lemma insert_by_perm key x l : Permutation (insert_by key x l) (x :: l).
Proof.
  induction l as [|y l IH]; simpl; [reflexivity|].
  destruct (key x <=? key y)%nat; [reflexivity|].
  rewrite IH. apply perm_swap.
Qed.

Lemma sort_by_perm key l : Permutation (sort_by key l) l.
Proof.
  induction l as [|x l IH]; simpl; [reflexivity|].
  rewrite insert_by_perm. apply perm_skip, IH.
Qed.

Lemma insert_by_hdrel key x y l :
  (key y <= key x)%nat -> HdRel (key_le key) y l -> HdRel (key_le key) y (insert_by key x l).
Proof.
  intros Hyx H. destruct l as [|z l]; simpl.
  - constructor. exact Hyx.
  - destruct (key x <=? key z)%nat; constructor; [exact Hyx|]. inversion H. assumption.
Qed.

Lemma insert_by_sorted key x l :
  Sorted (key_le key) l -> Sorted (key_le key) (insert_by key x l).
Proof.
  induction l as [|y l IH]; simpl; intros H.
  - repeat constructor.
  - destruct (key x <=? key y)%nat eqn:E.
    + constructor; [exact H|]. constructor. apply Nat.leb_le, E.
    + apply Sorted_inv in H as [Hl Hh]. constructor; [apply IH, Hl|].
      apply insert_by_hdrel; [|exact Hh]. apply Nat.leb_gt in E. unfold key_le. lia.
Qed.

Lemma sort_by_sorted key l : Sorted (key_le key) (sort_by key l).
Proof.
  induction l as [|x l IH]; simpl; [constructor|]. apply insert_by_sorted, IH.
Qed.

Lemma sorted_firstn {A} (R : A -> A -> Prop) n l : Sorted R l -> Sorted R (firstn n l).
Proof.
  revert l. induction n as [|n IH]; intros l H; [constructor|].
  destruct l as [|x l]; simpl; [constructor|].
  apply Sorted_inv in H as [Hl Hh]. constructor; [apply IH, Hl|].
  destruct n as [|n]; [constructor|]. destruct l as [|y l]; simpl; [constructor|].
  inversion Hh. constructor. assumption.
Qed.

Lemma map_fst_combine {A B} (l1 : list A) (l2 : list B) :
  map fst (combine l1 l2) = firstn (length l2) l1.
Proof.
  revert l2. induction l1 as [|x l1 IH]; intros [|y l2]; simpl; try reflexivity.
  - rewrite IH. reflexivity.
Qed.

Lemma map_snd_combine {A B} (l1 : list A) (l2 : list B) :
  map snd (combine l1 l2) = firstn (length l1) l2.
Proof.
  revert l2. induction l1 as [|x l1 IH]; intros [|y l2]; simpl; try reflexivity.
  rewrite IH. reflexivity.
Qed.

Lemma classify_columns_spec cols a b :
  classify_columns cols a b =
  ((a ++ filter is_command_col cols)%list, (b ++ filter is_description_col cols)%list).
Proof.
  revert a b. induction cols as [|col cols IH]; intros a b; simpl.
  - rewrite !app_nil_r. reflexivity.
  - change (str_in "command" (lower col) && has_digit (lower col)) with (is_command_col col).
    unfold is_description_col at 1.
    destruct (is_command_col col) eqn:E1; simpl.
    + rewrite IH, <- app_assoc. reflexivity.
    + destruct (str_in "description" (lower col) && has_digit (lower col)); simpl;
        rewrite IH; [rewrite <- app_assoc|]; reflexivity.
Qed.

Lemma get_command_pairs_eq cols :
  get_command_pairs cols =
  combine (sort_by get_number (filter is_command_col cols))
          (sort_by get_number (filter is_description_col cols)).
Proof. unfold get_command_pairs. rewrite classify_columns_spec. reflexivity. Qed.

(** *** The upload's rows *)

Lemma row_port_expected c : row_port c = Ret (expected_port c).
Proof.
  destruct c as [|z|s]; unfold row_port, expected_port, py_int; simpl; try reflexivity.
  destruct (py_int_str s); reflexivity.
Qed.

Lemma process_rows_spec cmd_rows rows acc :
  exists devs, process_rows cmd_rows rows acc = Ret (acc ++ devs)%list /\
               Forall2 (uploaded_row cmd_rows) rows devs.
Proof.
  revert acc. induction rows as [|row rows IH]; intros acc; simpl.
  - exists []. rewrite app_nil_r. auto.
  - unfold process_row at 1. rewrite row_port_expected. cbv beta iota zeta.
    match goal with
    | |- context [process_rows _ _ (acc ++ [?d])%list] =>
        destruct (IH (acc ++ [d])%list) as [devs [E H]]; exists (d :: devs)
    end.
    rewrite E, <- app_assoc. split; [reflexivity|].
    constructor; [|exact H]. repeat split.
Qed.

Lemma filter_filter_andb {A} (f g : A -> bool) l :
  filter f (filter g l) = filter (fun x => g x && f x) l.
Proof.
  induction l as [|x l IH]; simpl; [reflexivity|].
  destruct (g x); simpl; [destruct (f x); simpl|]; rewrite IH; reflexivity.
Qed.

Lemma filter_existsb_false {A} (f g : A -> bool) l :
  existsb f l = false -> filter (fun x => f x && g x) l = [].
Proof.
  induction l as [|x l IH]; simpl; [reflexivity|].
  destruct (f x); simpl; [discriminate|]. exact IH.
Qed.

(** *** process_device_data *)

(** X1: a command without a ['command'] key fails the request with status 400
    before any call to a backend. *)
Theorem process_device_data_missing_command (w : world) (dd : device_data) tr
    (H : In None (inspection_commands dd)) :
  process_device_data w dd tr =
  (Raise (http_exc 400 "Invalid device data format: 'command'"), tr).
Proof.
  unfold process_device_data, try_except, bind. cbv zeta.
  rewrite (extract_commands_none _ tr H). reflexivity.
Qed.

Lemma process_device_data_missing_command_witness :
  In None (inspection_commands
             {| dd_device_info := ios_device;
                inspection_commands := [Some "show version"; None] |}) /\
  process_device_data ok_world
    {| dd_device_info := ios_device;
       inspection_commands := [Some "show version"; None] |} [] =
  (Raise (http_exc 400 "Invalid device data format: 'command'"), []).
Proof.
  split; [simpl; right; left; reflexivity|].
  apply process_device_data_missing_command. simpl. right. left. reflexivity.
Defined.

(** X2: every [Exception] that leaves [process_device_data] is an
    [HTTPException] with status 400 whose detail starts with
    "Invalid device data format: ". *)
Theorem process_device_data_error_is_400 (w : world) (dd : device_data) tr cls m
    (H : fst (process_device_data w dd tr) = Raise (Exc cls m)) :
  cls = HTTPException 400 /\ exists d, m = "Invalid device data format: " ++ d.
Proof. exact (try_except_http _ 400 _ tr cls m H). Qed.

Lemma process_device_data_error_is_400_witness :
  fst (process_device_data ok_world
         {| dd_device_info := ios_device; inspection_commands := [None] |} [])
    = Raise (Exc (HTTPException 400) "Invalid device data format: 'command'") /\
  HTTPException 400 = HTTPException 400 /\
  exists d, "Invalid device data format: 'command'" = "Invalid device data format: " ++ d.
Proof.
  refine (conj eq_refl _).
  apply (process_device_data_error_is_400 ok_world
           {| dd_device_info := ios_device; inspection_commands := [None] |} []).
  reflexivity.
Defined.

(** X3: a connection failure, which [execute_commands] reports with status
    500, reaches the caller of [process_device_data] with status 400, the
    500 error's text inside the detail. *)
Theorem process_device_data_connection_failure_is_400 (w : world) (dd : device_data)
    tr cls m
    (Hc : ~ In None (inspection_commands dd))
    (Hf : connection_result w (dd_device_info dd) = Raise (Exc cls m)) :
  fst (process_device_data w dd tr) =
  Raise (http_exc 400 ("Invalid device data format: 500: Error executing commands: "
                       ++ py_str (connect_error (dd_device_info dd) (Exc cls m)))).
Proof.
  destruct (no_none_map_some _ Hc) as [cmds Hcmds].
  destruct dd as [di cs]. simpl in *. subst cs.
  unfold process_device_data, try_except, bind. cbv zeta. simpl.
  rewrite extract_commands_map_some.
  pose proof (execute_commands_result w di cmds tr) as E. rewrite Hf in E.
  destruct (connect_error_exc di cls m) as [d Hd]. rewrite Hd in *.
  destruct (execute_commands w di cmds tr) as [r tr']. simpl in E. subst r.
  reflexivity.
Qed.

Lemma process_device_data_connection_failure_is_400_witness :
  fst (process_device_data (pyats_failing_world TimeoutError) scenario_a_request []) =
  Raise (http_exc 400 ("Invalid device data format: 500: Error executing commands: "
                       ++ py_str (connect_error ios_device
                                   (Exc TimeoutError "failed to connect to 10.0.0.1")))).
Proof.
  apply (process_device_data_connection_failure_is_400
           (pyats_failing_world TimeoutError) scenario_a_request [] TimeoutError
           "failed to connect to 10.0.0.1").
  - simpl. intros [H|[H|[]]]; discriminate.
  - reflexivity.
Defined.

(** *** The endpoints *)

(** X4: the Cisco endpoint checks no [os_type]: it makes exactly the backend
    calls [execute_commands] makes for the request's descriptor, so a
    Huawei-family descriptor is served through Netmiko. *)
Theorem execute_cisco_commands_calls (w : world) (di : device_info)
    (cmds : list string) tr :
  snd (execute_cisco_commands w {| dd_device_info := di;
                                   inspection_commands := map Some cmds |} tr)
  = snd (execute_commands w di cmds tr).
Proof.
  unfold execute_cisco_commands. rewrite try_except_raise_snd.
  apply process_device_data_calls.
Qed.

(** X5: every [Exception] that leaves one of the three command endpoints is
    an [HTTPException] with status 500, also for the 400 errors raised by the
    [os_type] checks and by [process_device_data]. *)
Theorem endpoints_raise_only_500 (w : world) (dd : device_data) tr cls m
    (H : fst (execute_cisco_commands w dd tr) = Raise (Exc cls m) \/
         fst (execute_huawei_commands w dd tr) = Raise (Exc cls m) \/
         fst (execute_juniper_commands w dd tr) = Raise (Exc cls m)) :
  cls = HTTPException 500.
Proof.
  destruct H as [H|[H|H]];
    [unfold execute_cisco_commands in H | unfold execute_huawei_commands in H
    | unfold execute_juniper_commands in H];
    apply try_except_http in H; tauto.
Qed.

Lemma endpoints_raise_only_500_witness :
  fst (execute_huawei_commands ok_world scenario_a_request []) =
    Raise (Exc (HTTPException 500)
      "Error processing Huawei device data: 400: Invalid OS type for Huawei device. Use 'huawei', 'vrp', or 'vrpv8'")
  /\ HTTPException 500 = HTTPException 500.
Proof.
  refine (conj eq_refl _).
  apply (endpoints_raise_only_500 ok_world scenario_a_request [] _
    "Error processing Huawei device data: 400: Invalid OS type for Huawei device. Use 'huawei', 'vrp', or 'vrpv8'").
  right. left. reflexivity.
Defined.

(** X6: the Huawei endpoint refuses an [os_type] whose lowercase form is not
    "huawei", "vrp" or "vrpv8", before any backend call, with status 500. *)
Theorem execute_huawei_commands_rejects_os (w : world) (dd : device_data) tr
    (H : existsb (String.eqb (lower (os_type (dd_device_info dd))))
           ["huawei"; "vrp"; "vrpv8"] = false) :
  execute_huawei_commands w dd tr =
  (Raise (http_exc 500
     "Error processing Huawei device data: 400: Invalid OS type for Huawei device. Use 'huawei', 'vrp', or 'vrpv8'"),
   tr).
Proof. unfold execute_huawei_commands. cbv zeta. rewrite H. reflexivity. Qed.

(** A descriptor [execute_commands] treats as Huawei, refused by the Huawei
    endpoint. *)
Lemma execute_huawei_commands_rejects_os_witness :
  is_huawei "huawei_vrpv8" = true /\
  execute_huawei_commands ok_world
    {| dd_device_info :=
         {| os_type := "huawei_vrpv8"; ip_address := "10.0.0.99"; username := "admin";
            password := "x"; port := None; secret := None |};
       inspection_commands := [Some "display version"] |} [] =
  (Raise (http_exc 500
     "Error processing Huawei device data: 400: Invalid OS type for Huawei device. Use 'huawei', 'vrp', or 'vrpv8'"),
   []).
Proof.
  split; [reflexivity|]. apply execute_huawei_commands_rejects_os. reflexivity.
Defined.

(** X7: a request the Huawei endpoint accepts opens a Netmiko session first,
    with Netmiko device type "huawei_vrpv8" for "vrpv8" and "huawei" for
    "huawei" and "vrp", in any letter case. *)
Theorem execute_huawei_commands_uses_netmiko (w : world) (di : device_info)
    (cmds : list string) tr
    (H : existsb (String.eqb (lower (os_type di))) ["huawei"; "vrp"; "vrpv8"] = true) :
  (exists l, snd (execute_huawei_commands w {| dd_device_info := di;
                                               inspection_commands := map Some cmds |} tr)
             = (tr ++ Ev_netmiko_connect (netmiko_params_of di) :: l)%list) /\
  device_type (netmiko_params_of di) =
    (if String.eqb (lower (os_type di)) "vrpv8" then "huawei_vrpv8" else "huawei").
Proof.
  pose proof (existsb_eqb_in _ _ H) as Hin.
  assert (Hh : is_huawei (os_type di) = true).
  { unfold is_huawei. destruct Hin as [Hs|[Hs|[Hs|[]]]]; rewrite <- Hs; reflexivity. }
  split.
  - rewrite execute_huawei_commands_accepted_calls by exact H.
    rewrite process_device_data_calls.
    destruct (execute_commands_trace w di cmds tr) as [ll [Htr _]].
    rewrite Htr. unfold connection_events. rewrite Hh. eexists. reflexivity.
  - unfold netmiko_params_of, huawei_device_type. simpl.
    destruct Hin as [Hs|[Hs|[Hs|[]]]]; rewrite <- Hs; reflexivity.
Qed.

Lemma execute_huawei_commands_uses_netmiko_witness :
  existsb (String.eqb (lower "VRPv8")) ["huawei"; "vrp"; "vrpv8"] = true /\
  device_type (netmiko_params_of
                 {| os_type := "VRPv8"; ip_address := "10.0.0.99"; username := "admin";
                    password := "x"; port := None; secret := None |}) = "huawei_vrpv8".
Proof.
  split; [reflexivity|].
  exact (proj2 (execute_huawei_commands_uses_netmiko ok_world
                  {| os_type := "VRPv8"; ip_address := "10.0.0.99"; username := "admin";
                     password := "x"; port := None; secret := None |}
                  ["display version"] [] eq_refl)).
Defined.

(** X8: the Juniper endpoint refuses an [os_type] whose lowercase form is not
    "junos" or "junos-evo", before any backend call, with status 500. *)
Theorem execute_juniper_commands_rejects_os (w : world) (dd : device_data) tr
    (H : existsb (String.eqb (lower (os_type (dd_device_info dd))))
           ["junos"; "junos-evo"] = false) :
  execute_juniper_commands w dd tr =
  (Raise (http_exc 500
     "Error processing Juniper device data: 400: Invalid OS type for Juniper device. Use 'junos' or 'junos-evo'"),
   tr).
Proof. unfold execute_juniper_commands. cbv zeta. rewrite H. reflexivity. Qed.

Lemma execute_juniper_commands_rejects_os_witness :
  execute_juniper_commands ok_world scenario_a_request [] =
  (Raise (http_exc 500
     "Error processing Juniper device data: 400: Invalid OS type for Juniper device. Use 'junos' or 'junos-evo'"),
   []).
Proof. apply execute_juniper_commands_rejects_os. reflexivity. Defined.

(** X9: a request the Juniper endpoint accepts is served through pyATS: its
    first backend call loads the testbed built from the descriptor. *)
Theorem execute_juniper_commands_uses_pyats (w : world) (di : device_info)
    (cmds : list string) tr
    (H : existsb (String.eqb (lower (os_type di))) ["junos"; "junos-evo"] = true) :
  exists l, snd (execute_juniper_commands w {| dd_device_info := di;
                                               inspection_commands := map Some cmds |} tr)
            = (tr ++ Ev_pyats_load (create_testbed di) :: l)%list.
Proof.
  pose proof (existsb_eqb_in _ _ H) as Hin.
  assert (Hh : is_huawei (os_type di) = false).
  { unfold is_huawei. destruct Hin as [Hs|[Hs|[]]]; rewrite <- Hs; reflexivity. }
  rewrite execute_juniper_commands_accepted_calls by exact H.
  rewrite process_device_data_calls.
  destruct (execute_commands_trace w di cmds tr) as [ll [Htr _]].
  rewrite Htr. unfold connection_events. rewrite Hh. eexists. reflexivity.
Qed.

Lemma execute_juniper_commands_uses_pyats_witness :
  exists l, snd (execute_juniper_commands ok_world
                   {| dd_device_info :=
                        {| os_type := "JunOS"; ip_address := "10.0.0.7"; username := "admin";
                           password := "x"; port := None; secret := None |};
                      inspection_commands := map Some ["show version"] |} [])
            = ([] ++ Ev_pyats_load (create_testbed
                        {| os_type := "JunOS"; ip_address := "10.0.0.7"; username := "admin";
                           password := "x"; port := None; secret := None |}) :: l)%list.
Proof. apply execute_juniper_commands_uses_pyats. reflexivity. Defined.

(** *** execute_commands on an empty batch *)

(** X10: with no command, [execute_commands] still opens the session and
    disconnects once, and returns a report with no response. *)
Theorem execute_commands_empty_batch (w : world) (di : device_info) tr
    (Hc : connection_result w di = Ret tt) (Hd : w_disconnect w = Ret tt) :
  execute_commands w di [] tr =
  (Ret {| report_device_info := di; command_responses := [] |},
   (tr ++ connection_events w di ++ [Ev_disconnect])%list).
Proof.
  unfold execute_commands, connection_result, connection_events in *.
  destruct (is_huawei (os_type di)).
  - unfold try_except, bind at 1 2. rewrite connect_huawei_device_eq, Hc.
    unfold bind, disconnect, call, ret. simpl. rewrite Hd, <- app_assoc. reflexivity.
  - unfold try_except, bind at 1 2. rewrite connect_to_device_eq.
    destruct (w_load w (create_testbed di)); [|discriminate]. rewrite Hc.
    unfold bind, disconnect, call, ret. simpl. rewrite Hd, <- !app_assoc. reflexivity.
Qed.

Lemma execute_commands_empty_batch_witness :
  execute_commands ok_world vrpv8_device [] [] =
  (Ret {| report_device_info := vrpv8_device; command_responses := [] |},
   ([] ++ connection_events ok_world vrpv8_device ++ [Ev_disconnect])%list).
Proof. apply execute_commands_empty_batch; reflexivity. Defined.

(** *** get_command_pairs *)

(** X11: [get_command_pairs] gives as many pairs as the smaller of the numbers
    of command columns and description columns; each pair is a command column
    and a description column (a name with both words is a command column). *)
Theorem get_command_pairs_shape (columns : list string) :
  length (get_command_pairs columns) =
    Nat.min (length (filter is_command_col columns))
            (length (filter is_description_col columns)) /\
  Forall (fun p => is_command_col (fst p) = true /\ is_description_col (snd p) = true)
         (get_command_pairs columns).
Proof.
  rewrite get_command_pairs_eq. split.
  - rewrite length_combine, !(Permutation_length (sort_by_perm _ _)). reflexivity.
  - apply Forall_forall. intros [c d] Hin. simpl. split.
    + apply in_combine_l, (Permutation_in _ (sort_by_perm _ _)), filter_In in Hin.
      tauto.
    + apply in_combine_r, (Permutation_in _ (sort_by_perm _ _)), filter_In in Hin.
      tauto.
Qed.

(** X12: the command columns of the pairs, and their description columns, come
    in increasing order of the number written in the column name (by value,
    so "command2" before "command10"). *)
Theorem get_command_pairs_sorted (columns : list string) :
  Sorted (fun a b => get_number a <= get_number b)%nat (map fst (get_command_pairs columns)) /\
  Sorted (fun a b => get_number a <= get_number b)%nat (map snd (get_command_pairs columns)).
Proof.
  rewrite get_command_pairs_eq, map_fst_combine, map_snd_combine.
  split; apply sorted_firstn, sort_by_sorted.
Qed.

(** X13: when there are as many description columns as command columns,
    every command column and every description column appears in exactly
    one pair. *)
Theorem get_command_pairs_complete (columns : list string)
    (H : length (filter is_command_col columns) = length (filter is_description_col columns)) :
  Permutation (map fst (get_command_pairs columns)) (filter is_command_col columns) /\
  Permutation (map snd (get_command_pairs columns)) (filter is_description_col columns).
Proof.
  rewrite get_command_pairs_eq, map_fst_combine, map_snd_combine,
    !(Permutation_length (sort_by_perm _ _)), H.
  rewrite firstn_all2 by (rewrite (Permutation_length (sort_by_perm _ _)); lia).
  rewrite firstn_all2 by (rewrite (Permutation_length (sort_by_perm _ _)); lia).
  split; apply sort_by_perm.
Qed.

Lemma get_command_pairs_complete_witness :
  Permutation (map fst (get_command_pairs
                          ["Command 10"; "Description 10"; "command2"; "description2"]))
              ["Command 10"; "command2"] /\
  Permutation (map snd (get_command_pairs
                          ["Command 10"; "Description 10"; "command2"; "description2"]))
              ["Description 10"; "description2"].
Proof.
  exact (get_command_pairs_complete
           ["Command 10"; "Description 10"; "command2"; "description2"] eq_refl).
Defined.

(** *** upload_excel *)

(** X14: a file name that does not end in ".xlsx" or ".xls" (the test is
    case-sensitive) is refused with status 400 before the file is read. *)
Theorem upload_excel_bad_extension (u : upload_world) (filename : string)
    (H : ends_with ".xlsx" filename || ends_with ".xls" filename = false) :
  upload_excel u filename =
  Raise (http_exc 400 "File must be an Excel file (.xlsx or .xls)").
Proof. unfold upload_excel. rewrite H. reflexivity. Qed.

Lemma upload_excel_bad_extension_witness :
  upload_excel failing_upload "inventory.XLSX" =
  Raise (http_exc 400 "File must be an Excel file (.xlsx or .xls)").
Proof. apply upload_excel_bad_extension. reflexivity. Defined.

(** X15: an empty file is refused with status 500: the 400 error raised
    inside the [try] is caught by its [except Exception] clause. *)
Theorem upload_excel_empty_file (u : upload_world) (filename : string)
    (Hext : ends_with ".xlsx" filename || ends_with ".xls" filename = true)
    (Hr : u_read u = Ret "") :
  upload_excel u filename = Raise (http_exc 500 "Error processing file: 400: File is empty").
Proof. unfold upload_excel, upload_body. rewrite Hext, Hr. reflexivity. Qed.

Lemma upload_excel_empty_file_witness :
  upload_excel empty_upload "inventory.xlsx" =
  Raise (http_exc 500 "Error processing file: 400: File is empty").
Proof. apply upload_excel_empty_file; reflexivity. Defined.

(** X16: a sheet without one of its required columns is refused with status
    500, the detail listing the missing columns of the Devices sheet, or
    else of the Commands sheet, in the order of the required list. *)
Theorem upload_excel_missing_columns (u : upload_world) (filename contents : string)
    (devices_df commands_df : dataframe)
    (Hext : ends_with ".xlsx" filename || ends_with ".xls" filename = true)
    (Hr : u_read u = Ret contents) (Hc : contents <> "")
    (Hd : u_read_excel u contents "Devices" = Ret devices_df)
    (Hm : u_read_excel u contents "Commands" = Ret commands_df)
    (Hmiss : missing_columns required_device_columns (df_columns devices_df) <> [] \/
             missing_columns required_command_columns (df_columns commands_df) <> []) :
  upload_excel u filename =
  Raise (http_exc 500
    ("Error processing file: 400: " ++
     match missing_columns required_device_columns (df_columns devices_df) with
     | [] => "Missing required columns in Commands sheet: "
             ++ join ", " (missing_columns required_command_columns (df_columns commands_df))
     | md => "Missing required columns in Devices sheet: " ++ join ", " md
     end)).
Proof.
  apply String.eqb_neq in Hc.
  unfold upload_excel, upload_body. rewrite Hext, Hr, Hc, Hd, Hm.
  destruct (missing_columns required_device_columns (df_columns devices_df)) as [|x md].
  - destruct (missing_columns required_command_columns (df_columns commands_df)) as [|y mc].
    + destruct Hmiss as [H|H]; contradiction.
    + reflexivity.
  - reflexivity.
Qed.

Lemma upload_excel_missing_columns_witness :
  upload_excel (sheets_upload old_devices_sheet commands_sheet) "inventory.xlsx" =
  Raise (http_exc 500
    "Error processing file: 400: Missing required columns in Devices sheet: os_type").
Proof.
  apply (upload_excel_missing_columns (sheets_upload old_devices_sheet commands_sheet)
           "inventory.xlsx" "PK" old_devices_sheet commands_sheet);
    try reflexivity.
  - discriminate.
  - left. discriminate.
Defined.

(** X17: a [ValueError] raised while reading the Devices sheet is answered
    with status 400: pandas' [EmptyDataError] with the detail "The Excel file
    is empty or contains no data", any other [ValueError] (as pandas raises
    for a workbook without that sheet) with "Invalid port value: " followed
    by the error's text. *)
Theorem upload_excel_read_value_error (u : upload_world)
    (filename contents name msg : string)
    (Hext : ends_with ".xlsx" filename || ends_with ".xls" filename = true)
    (Hr : u_read u = Ret contents) (Hc : contents <> "")
    (Hd : u_read_excel u contents "Devices" = Raise (Exc (ValueErrorClass name) msg)) :
  upload_excel u filename =
  Raise (http_exc 400
    (if String.eqb name "EmptyDataError"
     then "The Excel file is empty or contains no data"
     else "Invalid port value: " ++ msg)).
Proof.
  apply String.eqb_neq in Hc.
  unfold upload_excel, upload_body. rewrite Hext, Hr, Hc, Hd.
  cbv beta iota zeta delta [negb upload_handler is_empty_data_error is_value_error].
  destruct (String.eqb name "EmptyDataError"); reflexivity.
Qed.

Lemma upload_excel_read_value_error_witness :
  upload_excel no_devices_sheet_upload "inventory.xls" =
    Raise (http_exc 400 "Invalid port value: Worksheet named 'Devices' not found") /\
  upload_excel empty_sheet_upload "inventory.xlsx" =
    Raise (http_exc 400 "The Excel file is empty or contains no data").
Proof.
  split.
  - apply (upload_excel_read_value_error no_devices_sheet_upload "inventory.xls" "PK"
             "ValueError"); try reflexivity.
    discriminate.
  - apply (upload_excel_read_value_error empty_sheet_upload "inventory.xlsx" "PK"
             "EmptyDataError" "No columns to parse from file"); try reflexivity.
    discriminate.
Defined.

(** X18: once both sheets are read and have their required columns, the
    upload succeeds whatever the cells hold: one device per row of the
    Devices sheet, in row order, with its text fields stripped, no secret,
    and as port the cell's integer, or 22 for an empty cell or a text that
    is not an integer. *)
Theorem upload_excel_success (u : upload_world) (filename contents : string)
    (devices_df commands_df : dataframe)
    (Hext : ends_with ".xlsx" filename || ends_with ".xls" filename = true)
    (Hr : u_read u = Ret contents) (Hc : contents <> "")
    (Hd : u_read_excel u contents "Devices" = Ret devices_df)
    (Hm : u_read_excel u contents "Commands" = Ret commands_df)
    (Hcd : missing_columns required_device_columns (df_columns devices_df) = [])
    (Hcc : missing_columns required_command_columns (df_columns commands_df) = []) :
  exists devs,
    upload_excel u filename =
      Ret {| up_filename := filename; total_devices := length (df_rows devices_df);
             up_devices := devs |} /\
    Forall2 (uploaded_row (df_rows commands_df)) (df_rows devices_df) devs.
Proof.
  apply String.eqb_neq in Hc.
  unfold upload_excel, upload_body. rewrite Hext, Hr, Hc, Hd, Hm, Hcd, Hcc. simpl.
  destruct (process_rows_spec (df_rows commands_df) (df_rows devices_df) [])
    as [devs [E H]].
  rewrite E. exists devs. split; [|exact H].
  rewrite (Forall2_length H). reflexivity.
Qed.

Lemma upload_excel_success_witness :
  exists devs,
    upload_excel (sheets_upload devices_sheet commands_sheet) "inventory.xlsx" =
      Ret {| up_filename := "inventory.xlsx"; total_devices := 1; up_devices := devs |} /\
    Forall2 (uploaded_row []) (df_rows devices_sheet) devs.
Proof.
  apply (upload_excel_success (sheets_upload devices_sheet commands_sheet)
           "inventory.xlsx" "PK" devices_sheet commands_sheet);
    try reflexivity.
  discriminate.
Defined.

(** X19: the commands of an uploaded device are the non-missing commands of
    the Commands rows whose [os_type] equals the device's (never any for a
    missing [os_type]), stripped, in sheet order; [process_device_data] reads
    them without a [KeyError] and without a backend call. *)
Theorem uploaded_commands_extract (cmd_rows : list (string -> cell)) (os : cell) tr :
  extract_commands (device_commands cmd_rows os) tr =
  (Ret (map (fun r => strip (str_cell (r "command")))
            (filter (fun r => cell_key_eqb (r "os_type") os && notna (r "command"))
                    cmd_rows)), tr).
Proof.
  unfold device_commands, get_group. rewrite filter_filter_andb.
  destruct (in_groups cmd_rows os) eqn:E.
  - rewrite <- extract_commands_map_some, map_map. reflexivity.
  - unfold in_groups in E. rewrite (filter_existsb_false _ _ _ E). reflexivity.
Qed.
